(** * Figma plugin logger: a model of [logger/logger_server.py]

    The server keeps one JSON log file and a directory of PNG files.
    [POST /log] decodes the screenshots of a submission into the media
    directory and appends a record to the log file; [GET /logs] returns a
    trailing slice of the log.

    The handlers are embedded as functions in a small state-and-exception
    monad over a file-system state.  Python's [str] is [string] (one [ascii]
    per character, so the model covers text whose code points are below 256),
    [bytes] is [list byte], a [dict] with string keys that the code only
    looks up is a [gmap string _], and a JSON document is the value
    [json.load] produces.

    The server is parameterised by the directory of its script, by the
    base64 decoder of the standard library and by the environment's answer
    to opening a path for writing: what is proved of the handlers holds for
    any decoder and any environment.  A reference decoder after CPython's
    [binascii.a2b_base64] is given for the sample runs, together with the
    standard encoder that it inverts.  Paths are joined as on POSIX. *)

From Stdlib Require Import ZArith Ascii String List Lia.
From Stdlib Require Import Strings.Byte.
From stdpp Require Import base option list strings pretty gmap.

Local Open Scope string_scope.
Local Open Scope list_scope.
Local Open Scope Z_scope.

(** ** JSON documents, as [json.load] returns them *)

#[warnings="-register-all"] Inductive json : Type :=
| JNull
| JBool (b : bool)
| JInt (z : Z)
| JFloat (repr : string)
| JStr (s : string)
| JArr (items : list json)
| JObj (fields : list (string * json)).

(** Python's name for the type of a loaded document. *)
Definition type_name (j : json) : string :=
  match j with
  | JNull => "NoneType"
  | JBool _ => "bool"
  | JInt _ => "int"
  | JFloat _ => "float"
  | JStr _ => "str"
  | JArr _ => "list"
  | JObj _ => "dict"
  end.

(** [Optional[...]] fields are stored as the value or [None]. *)
Definition of_optional (o : option json) : json := default JNull o.

(** Reading a key of a JSON object; [None] when the key is missing. *)
Fixpoint assoc (k : string) (fields : list (string * json)) : option json :=
  match fields with
  | [] => None
  | (k', v) :: rest => if String.eqb k k' then Some v else assoc k rest
  end.

Definition field (k : string) (j : json) : option json :=
  match j with
  | JObj fields => assoc k fields
  | _ => None
  end.

(** ** Exceptions and outcomes *)

Inductive exn_class : Type :=
| BinasciiError | ValueError | OSError | JSONDecodeError
| AttributeError | TypeError | IndexError.

(** An exception with the text [str(e)] gives. *)
Record exn : Type := Exn { exn_cls : exn_class; exn_msg : string }.

Inductive outcome (A : Type) : Type :=
| Ok (a : A)
| Raise (e : exn).
Arguments Ok {A} a.
Arguments Raise {A} e.

(** ** The [str] and sequence operations the server uses *)

Module Py.

(** [s.replace(old, new)] for one-character [old] and [new]. *)
Fixpoint replace (old new : ascii) (s : string) : string :=
  match s with
  | EmptyString => EmptyString
  | String c s' =>
      String (if Ascii.eqb c old then new else c) (replace old new s')
  end.

(** [sep in s] for a one-character [sep]. *)
Fixpoint contains (sep : ascii) (s : string) : bool :=
  match s with
  | EmptyString => false
  | String c s' => if Ascii.eqb c sep then true else contains sep s'
  end.

(** [s.split(sep)]: every occurrence of [sep] ends a field. *)
Fixpoint split (sep : ascii) (s : string) : list string :=
  match s with
  | EmptyString => [EmptyString]
  | String c s' =>
      if Ascii.eqb c sep then EmptyString :: split sep s'
      else match split sep s' with
           | f :: fs => String c f :: fs
           | [] => [String c EmptyString]
           end
  end.

(** [s[:n]] for a constant [n >= 0]. *)
Fixpoint take (n : nat) (s : string) : string :=
  match n, s with
  | S n', String c s' => String c (take n' s')
  | _, _ => EmptyString
  end.

Fixpoint drop (n : nat) (s : string) : string :=
  match n, s with
  | S n', String _ s' => drop n' s'
  | _, _ => s
  end.

(** [s.startswith(c)] for a one-character [c]. *)
Definition startswith (c : ascii) (s : string) : bool :=
  match s with
  | String c' _ => Ascii.eqb c' c
  | EmptyString => false
  end.

Fixpoint endswith (c : ascii) (s : string) : bool :=
  match s with
  | EmptyString => false
  | String c' EmptyString => Ascii.eqb c' c
  | String _ s' => endswith c s'
  end.

(** Truth value of an [Optional[str]]: [None] and [''] are false. *)
Definition truthy (v : option string) : bool :=
  match v with
  | Some (String _ _) => true
  | _ => false
  end.

(** [d.get(k)] on a [Dict[str, Optional[str]]]: a missing key reads as
    [None], exactly as a key stored with [None]. *)
Definition get (k : string) (d : gmap string (option string)) : option string :=
  default None (d !! k).

(** The index at which [x[start:]] begins in a sequence of length [len]:
    a negative [start] counts from the end, and both ends clamp. *)
Definition slice_start (start len : Z) : nat :=
  Z.to_nat (if start <? 0 then Z.max 0 (start + len) else Z.min start len).

(** [l[i]] for a constant [i >= 0]. *)
Definition index {A} (l : list A) (i : nat) : outcome A :=
  match l !! i with
  | Some a => Ok a
  | None => Raise (Exn IndexError "list index out of range")
  end.

(** [len(x)] on a loaded document. *)
Definition len (j : json) : outcome Z :=
  match j with
  | JArr items => Ok (Z.of_nat (length items))
  | JObj fields => Ok (Z.of_nat (length fields))
  | JStr s => Ok (Z.of_nat (String.length s))
  | _ => Raise (Exn TypeError
                    ("object of type '" +:+ type_name j +:+ "' has no len()"))
  end.

(** [x[start:]] on a loaded document that has a length.  A [dict] has a
    length but cannot be sliced; the message is that of CPython up to 3.11
    (later versions raise a [KeyError] instead). *)
Definition slice_from (start : Z) (j : json) : outcome json :=
  match j with
  | JArr items =>
      Ok (JArr (List.skipn (slice_start start (Z.of_nat (length items))) items))
  | JStr s =>
      Ok (JStr (drop (slice_start start (Z.of_nat (String.length s))) s))
  | JObj _ => Raise (Exn TypeError "unhashable type: 'slice'")
  | _ => Raise (Exn TypeError
                    ("'" +:+ type_name j +:+ "' object is not subscriptable"))
  end.

(** [x.append(v)]: only a list has the method. *)
Definition append (j v : json) : outcome json :=
  match j with
  | JArr items => Ok (JArr (items ++ [v]))
  | _ => Raise (Exn AttributeError
                    ("'" +:+ type_name j +:+ "' object has no attribute 'append'"))
  end.

(** [posixpath.join(a, b)]: a [b] that starts with the separator is
    absolute and replaces [a]. *)
Definition path_join (a b : string) : string :=
  if startswith "/" b then b
  else if (String.eqb a "" || endswith "/" a)%bool then a +:+ b
  else a +:+ "/" +:+ b.

(** [s.rstrip(c)] for a one-character [c]. *)
Fixpoint rstrip (c : ascii) (s : string) : string :=
  match s with
  | EmptyString => EmptyString
  | String x s' =>
      match rstrip c s' with
      | EmptyString => if Ascii.eqb x c then EmptyString else String x EmptyString
      | rest => String x rest
      end
  end.

(** [p[:p.rfind(c) + 1]]: the text up to and with the last [c]. *)
Fixpoint through_last (c : ascii) (s : string) : string :=
  match s with
  | EmptyString => EmptyString
  | String x s' =>
      if (Ascii.eqb x c || contains c s')%bool
      then String x (through_last c s')
      else EmptyString
  end.

(** [posixpath.dirname(p)] *)
Definition dirname (p : string) : string :=
  let head := through_last "/" p in
  match rstrip "/" head with
  | EmptyString => head
  | stripped => stripped
  end.

End Py.

(** ** Base64

    [b64encode] is the standard encoding (RFC 4648, with padding), the form
    in which a client puts image bytes into a submission.  [b64decode] is a
    reference model of [base64.b64decode(s)] as the server calls it, with
    [validate] left at [False]: the text must be ASCII, characters outside
    the alphabet are skipped, and the loop follows [binascii.a2b_base64] in
    its non-strict mode. *)

Module Base64.

Definition alphabet : list ascii :=
  list_ascii_of_string
    "ABCDEFGHIJKLMNOPQRSTUVWXYZabcdefghijklmnopqrstuvwxyz0123456789+/".

Definition PAD : ascii := "="%char.

Definition table_b2a (i : Z) : ascii := nth (Z.to_nat i) alphabet "A"%char.

Fixpoint find_index (c : ascii) (l : list ascii) (i : Z) : option Z :=
  match l with
  | [] => None
  | c' :: l' => if Ascii.eqb c c' then Some i else find_index c l' (i + 1)
  end.

Definition table_a2b (c : ascii) : option Z := find_index c alphabet 0.

Definition Z_of_byte (b : byte) : Z := Z.of_N (Byte.to_N b).

(** Storing an [int] into an [unsigned char]. *)
Definition byte_of_Z (z : Z) : byte :=
  byte_of_ascii (ascii_of_N (Z.to_N (z mod 256))).

Fixpoint b64encode (bs : list byte) : string :=
  match bs with
  | [] => EmptyString
  | [a] =>
      let a := Z_of_byte a in
      String (table_b2a (Z.shiftr a 2))
        (String (table_b2a (Z.shiftl (Z.land a 3) 4))
           (String PAD (String PAD EmptyString)))
  | [a; b] =>
      let a := Z_of_byte a in
      let b := Z_of_byte b in
      String (table_b2a (Z.shiftr a 2))
        (String (table_b2a (Z.lor (Z.shiftl (Z.land a 3) 4) (Z.shiftr b 4)))
           (String (table_b2a (Z.shiftl (Z.land b 15) 2))
              (String PAD EmptyString)))
  | a :: b :: c :: rest =>
      let a := Z_of_byte a in
      let b := Z_of_byte b in
      let c := Z_of_byte c in
      String (table_b2a (Z.shiftr a 2))
        (String (table_b2a (Z.lor (Z.shiftl (Z.land a 3) 4) (Z.shiftr b 4)))
           (String (table_b2a (Z.lor (Z.shiftl (Z.land b 15) 2) (Z.shiftr c 6)))
              (String (table_b2a (Z.land c 63)) (b64encode rest))))
  end.

(** The decoding loop.  [quad_pos] is the position inside the current group
    of four characters, [leftchar] the bits not yet written, [pads] the run
    of padding characters seen since the last data character, [out] the
    bytes written so far. *)
Fixpoint a2b_loop (s : string) (quad_pos leftchar pads : Z) (out : list byte)
  : outcome (list byte) :=
  match s with
  | EmptyString =>
      if quad_pos =? 0 then Ok out
      else if quad_pos =? 1 then
        Raise (Exn BinasciiError
                 ("Invalid base64-encoded string: number of data characters ("
                  +:+ pretty (Z.of_nat (length out) / 3 * 4 + 1)
                  +:+ ") cannot be 1 more than a multiple of 4"))
      else Raise (Exn BinasciiError "Incorrect padding")
  | String this_ch s' =>
      if Ascii.eqb this_ch PAD then
        if 2 <=? quad_pos then
          if 4 <=? quad_pos + (pads + 1) then Ok out
          else a2b_loop s' quad_pos leftchar (pads + 1) out
        else a2b_loop s' quad_pos leftchar pads out
      else
        match table_a2b this_ch with
        | None => a2b_loop s' quad_pos leftchar pads out
        | Some v =>
            if quad_pos =? 0 then a2b_loop s' 1 v 0 out
            else if quad_pos =? 1 then
              a2b_loop s' 2 (Z.land v 15) 0
                (out ++ [byte_of_Z (Z.lor (Z.shiftl leftchar 2) (Z.shiftr v 4))])
            else if quad_pos =? 2 then
              a2b_loop s' 3 (Z.land v 3) 0
                (out ++ [byte_of_Z (Z.lor (Z.shiftl leftchar 4) (Z.shiftr v 2))])
            else
              a2b_loop s' 0 0 0
                (out ++ [byte_of_Z (Z.lor (Z.shiftl leftchar 6) v)])
        end
  end.

Definition a2b_base64 (s : string) : outcome (list byte) := a2b_loop s 0 0 0 [].

Fixpoint is_ascii (s : string) : bool :=
  match s with
  | EmptyString => true
  | String c s' => (N_of_ascii c <? 128)%N && is_ascii s'
  end.

Definition b64decode (s : string) : outcome (list byte) :=
  if is_ascii s then a2b_base64 s
  else Raise (Exn ValueError
                "string argument should contain only ASCII characters").

(** The four sextets of a group of three bytes [a b c]. *)
Definition s1 (a : Z) : Z := Z.shiftr a 2.
Definition s2 (a b : Z) : Z := Z.lor (Z.shiftl (Z.land a 3) 4) (Z.shiftr b 4).
Definition s3 (b c : Z) : Z := Z.lor (Z.shiftl (Z.land b 15) 2) (Z.shiftr c 6).
Definition s4 (c : Z) : Z := Z.land c 63.

(** Checks run over all sextets and over all pairs of byte values: the two
    tables are inverse, and sextets put back together give the bytes. *)
Definition below (n : nat) : list Z := map Z.of_nat (seq 0 n).

Definition in_sextet (v : Z) : bool := (0 <=? v) && (v <? 64).

Definition sextet_ok (i : Z) : bool :=
  match table_a2b (table_b2a i) with
  | Some j => j =? i
  | None => false
  end
  && negb (Ascii.eqb (table_b2a i) PAD)
  && (N_of_ascii (table_b2a i) <? 128)%N.

Definition pair_ok (a b : Z) : bool :=
  in_sextet (s1 a) && in_sextet (s2 a b) && in_sextet (s3 a b) && in_sextet (s4 a)
  && (Z.lor (Z.shiftl (s1 a) 2) (Z.shiftr (s2 a b) 4) =? a)
  && (Z.land (s2 a b) 15 =? Z.shiftr b 4)
  && (Z.lor (Z.shiftl (Z.shiftr a 4) 4) (Z.shiftr (s3 a b) 2) =? a)
  && (Z.land (s3 a b) 3 =? Z.shiftr b 6)
  && (Z.lor (Z.shiftl (Z.shiftr a 6) 6) (s4 a) =? a)
  && in_sextet (Z.shiftl (Z.land a 3) 4)
  && (Z.lor (Z.shiftl (s1 a) 2) (Z.shiftr (Z.shiftl (Z.land a 3) 4) 4) =? a)
  && (Z.land (Z.shiftl (Z.land a 3) 4) 15 =? 0)
  && in_sextet (Z.shiftl (Z.land a 15) 2)
  && (Z.lor (Z.shiftl (Z.shiftr a 4) 4) (Z.shiftr (Z.shiftl (Z.land a 15) 2) 2) =? a).

End Base64.

(** ** The file system and the handler monad

    The log file is represented by what opening and parsing it yields: a
    JSON document, or the exception that [open] or [json.load] raises on it.
    [json.dump] followed by [json.load] gives back the document written.
    Media files are keyed by the path handed to [open]; whether a path
    can be opened for writing is decided by the environment (the directory
    must exist), which the server takes as a parameter.  Lines printed by the server are kept in [stdout]. *)

Inductive log_content : Type :=
| Unreadable (e : exn)
| Document (j : json).

Record fs : Type := FS {
  log_file : log_content;
  media : gmap string (list byte);
  stdout : list string
}.

Definition M (A : Type) : Type := fs -> outcome A * fs.

Definition ret {A} (a : A) : M A := fun st => (Ok a, st).

Definition bind {A B} (m : M A) (k : A -> M B) : M B :=
  fun st =>
    match m st with
    | (Ok a, st') => k a st'
    | (Raise e, st') => (Raise e, st')
    end.

Definition lift {A} (o : outcome A) : M A := fun st => (o, st).

Notation "'do' x <- m ; k" := (bind m (fun x => k))
  (at level 10, x name, m at level 100, k at level 200).
Notation "'do_' m ; k" := (bind m (fun _ => k))
  (at level 10, m at level 100, k at level 200).

(** The state after a media file was written, after a document was written
    to the log file, and after a line was printed. *)
Definition written (path : string) (data : list byte) (st : fs) : fs :=
  {| log_file := log_file st;
     media := <[path := data]> (media st);
     stdout := stdout st |}.

Definition dumped (logs : json) (st : fs) : fs :=
  {| log_file := Document logs;
     media := media st;
     stdout := stdout st |}.

Definition print (line : string) (st : fs) : fs :=
  {| log_file := log_file st;
     media := media st;
     stdout := stdout st ++ [line] |}.

(** The log file after the list [old] was written back with [entry] added. *)
Definition appended (entry : json) (old : list json) (st : fs) : fs :=
  dumped (JArr (old ++ [entry])) st.

(** [with open(LOG_FILE, 'r') as f: logs = json.load(f)] *)
Definition load_logs : M json :=
  fun st =>
    match log_file st with
    | Unreadable e => (Raise e, st)
    | Document j => (Ok j, st)
    end.

(** [with open(LOG_FILE, 'w') as f: json.dump(logs, f, indent=2)] *)
Definition dump_logs (logs : json) : M unit :=
  fun st => (Ok tt, dumped logs st).

(** What a handler gives the framework: a body to send with status 200, or
    an [HTTPException]. *)
Inductive response : Type :=
| Return (body : json)
| HTTPException (status_code : Z) (detail : string).

(** ** The request model *)

Record GenerationLog : Type := {
  timestamp : string;
  designPrompt : string;
  figmaDOM : list (string * json);
  descriptionAPI : option (list (string * json));
  generationAPI : option (list (string * json));
  screenshots : gmap string (option string)
}.

(** The same submission with another [screenshots] mapping. *)
Definition with_screenshots (log : GenerationLog)
    (shots : gmap string (option string)) : GenerationLog :=
  {| timestamp := timestamp log;
     designPrompt := designPrompt log;
     figmaDOM := figmaDOM log;
     descriptionAPI := descriptionAPI log;
     generationAPI := generationAPI log;
     screenshots := shots |}.

(** ** Vocabulary of the specification *)

Module Spec.

(** Everything after the first [sep] of [s]; empty when there is none. *)
Fixpoint after_first (sep : ascii) (s : string) : string :=
  match s with
  | EmptyString => EmptyString
  | String c s' => if Ascii.eqb c sep then s' else after_first sep s'
  end.

(** The text of [s] in front of its first [sep]; all of [s] when there is
    none. *)
Fixpoint up_to_first (sep : ascii) (s : string) : string :=
  match s with
  | EmptyString => EmptyString
  | String c s' =>
      if Ascii.eqb c sep then EmptyString else String c (up_to_first sep s')
  end.

(** The character-wise substitution of the token: [:] and [.] become [-],
    [T] becomes [_]. *)
Definition sanitize (c : ascii) : ascii :=
  if Ascii.eqb c ":" then "-"%char
  else if Ascii.eqb c "." then "-"%char
  else if Ascii.eqb c "T" then "_"%char
  else c.

Fixpoint map_chars (f : ascii -> ascii) (s : string) : string :=
  match s with
  | EmptyString => EmptyString
  | String c s' => String (f c) (map_chars f s')
  end.

(** The last [n] records of a log, oldest first. *)
Definition last_records {A} (n : nat) (records : list A) : list A :=
  List.skipn (length records - n) records.

(** A text that is the base64 encoding of no byte sequence. *)
Definition malformed (s : string) : Prop :=
  forall payload : list byte, Base64.b64encode payload <> s.

(** The prefix of a PNG data URI. *)
Definition data_uri (b64 : string) : string := "data:image/png;base64," +:+ b64.

End Spec.

(** ** Sample data *)

Module Sample.

Definition dir : string := "/srv/picasso/logger".

(** A server that has just created its log file. *)
Definition fresh : fs := FS (Document (JArr [])) ∅ [].

Definition submission (ts : string) (shots : gmap string (option string))
  : GenerationLog :=
  {| timestamp := ts;
     designPrompt := "a login form";
     figmaDOM := [("type", JStr "FRAME")];
     descriptionAPI := None;
     generationAPI := None;
     screenshots := shots |}.

Definition ts : string := "2024-01-02T03:04:05.678Z".

(** The bytes [ABC]; their encoding is [QUJD]. *)
Definition ABC : list byte := [x41; x42; x43]%byte.

(** The same bytes as a PNG data URI. *)
Definition uri_ABC : string := "data:image/png;base64,QUJD".

Definition plain : GenerationLog := submission ts ∅.
Definition with_before (shot : string) : GenerationLog :=
  submission ts {[ "before" := Some shot ]}.

(** A value with two commas, and a submission whose timestamp begins with
    the path separator. *)
Definition two_commas : string := "x,QUJD,QUJD".

Definition absolute : GenerationLog :=
  submission "/tmp/shot" {[ "before" := Some "QUJD" ]}.

(** The same submission with the payload bare and behind the data-URI
    prefix. *)
Definition raw (payload : list byte) : GenerationLog :=
  with_screenshots plain
    (<["before" := Some (Base64.b64encode payload)]> (screenshots plain)).

Definition prefixed (payload : list byte) : GenerationLog :=
  with_screenshots plain
    (<["before" := Some (Spec.data_uri (Base64.b64encode payload))]>
       (screenshots plain)).

Definition before_png : string :=
  "/srv/picasso/logger/../logger_data/media/2024-01-02_03-04-05-before.png".

Definition record (n : Z) : json := JObj [("timestamp", JStr "t"); ("n", JInt n)].

Definition two_records : fs :=
  FS (Document (JArr [record 1; record 2])) ∅ [].

Definition three_records : fs :=
  FS (Document (JArr [record 1; record 2; record 3])) ∅ [].

(** A submission with both screenshots, two submissions whose timestamps
    differ only after the nineteenth character, and log files that are
    unreadable or hold an object. *)
Definition with_both (before after : string) : GenerationLog :=
  submission ts {[ "before" := Some before; "after" := Some after ]}.

Definition first_of_second : GenerationLog :=
  submission "2024-01-02T03:04:05.111Z" {[ "before" := Some "QUJD" ]}.

Definition later_in_second : GenerationLog :=
  submission "2024-01-02T03:04:05.999Z" {[ "before" := Some "QUJE" ]}.

(** The bytes [ABD]; their encoding is [QUJE]. *)
Definition ABD : list byte := [x41; x42; x44]%byte.

(** An environment in which the logger directory, the media directory and
    [/tmp] exist and nothing else: a path opens when it lies directly in
    one of them, and [open] raises [FileNotFoundError] (an [OSError])
    otherwise. *)
Definition directories : list string :=
  ["/srv/picasso/logger/../logger_data";
   "/srv/picasso/logger/../logger_data/media";
   "/tmp"].

Definition open_wb (path : string) : option exn :=
  if existsb (String.eqb (Py.dirname path)) directories then None
  else Some (Exn OSError
               ("[Errno 2] No such file or directory: '" +:+ path +:+ "'")).



Definition parse_error : exn :=
  Exn JSONDecodeError "Expecting value: line 1 column 1 (char 0)".

Definition unreadable : fs := FS (Unreadable parse_error) ∅ [].

Definition object_log : fs := FS (Document (JObj [])) ∅ [].

End Sample.

(** ** The server *)

Section Server.

Set Default Proof Using "Type".

(** The directory of the script, the library's base64 decoder, and the
    environment's answer to [open(path, "wb")]: the exception it raises on
    the path, if any. *)
Variable SCRIPT_DIR : string.
Variable b64decode : string -> outcome (list byte).
Variable open_wb : string -> option exn.

(** [with open(path, "wb") as f: f.write(data)] *)
Definition write_file (path : string) (data : list byte) : M unit :=
  fun st =>
    match open_wb path with
    | Some e => (Raise e, st)
    | None => (Ok tt, written path data st)
    end.

Definition LOGGER_DIR : string :=
  Py.path_join (Py.path_join SCRIPT_DIR "..") "logger_data".
Definition MEDIA_DIR : string := Py.path_join LOGGER_DIR "media".
Definition LOG_FILE : string := Py.path_join LOGGER_DIR "generation_logs.json".

Definition root : response :=
  Return (JObj [("message", JStr "Figma Plugin Logger Server");
                ("status", JStr "running")]).

Definition health : response := Return (JObj [("status", JStr "healthy")]).

(** [log.timestamp.replace(":", "-").replace(".", "-").replace("T", "_")[:19]] *)
Definition timestamp_safe (log : GenerationLog) : string :=
  Py.take 19
    (Py.replace "T" "_" (Py.replace "." "-" (Py.replace ":" "-" (timestamp log)))).

(** [shot.split(",")[1] if "," in shot else shot] *)
Definition base64_data (shot : string) : outcome string :=
  if Py.contains "," shot then Py.index (Py.split "," shot) 1 else Ok shot.

(** The text handed to the decoder, in closed form: the field between the
    first comma and the next one, or the whole text when it has no comma. *)
Definition payload_of (shot : string) : string :=
  if Py.contains "," shot
  then Spec.up_to_first "," (Spec.after_first "," shot)
  else shot.

(** The name of the image file of a slot, and the path stored in the log. *)
Definition image_name (token slot : string) : string :=
  token +:+ "-" +:+ slot +:+ ".png".

Definition image_path (token slot : string) : string :=
  Py.path_join MEDIA_DIR (image_name token slot).

Definition stored_path (token slot : string) : string :=
  "media/" +:+ image_name token slot.

(** The body of [if log.screenshots.get(slot): ...], the same for both
    slots: decode the payload, write the file, give the path to store. *)
Definition save_screenshot (token slot shot : string) : M json :=
  do data <- lift (base64_data shot);
  do image_bytes <- lift (b64decode data);
  do_ write_file (image_path token slot) image_bytes;
  ret (JStr (stored_path token slot)).

(** One slot of [screenshot_paths]: [None] unless the value is truthy. *)
Definition screenshot_slot (log : GenerationLog) (slot : string) : M json :=
  match Py.get slot (screenshots log) with
  | Some shot =>
      if Py.truthy (Some shot)
      then save_screenshot (timestamp_safe log) slot shot
      else ret JNull
  | None => ret JNull
  end.

Definition log_entry (log : GenerationLog) (before after : json) : json :=
  JObj [("timestamp", JStr (timestamp log));
        ("designPrompt", JStr (designPrompt log));
        ("figmaDOM", JObj (figmaDOM log));
        ("descriptionAPI", of_optional (JObj <$> descriptionAPI log));
        ("generationAPI", of_optional (JObj <$> generationAPI log));
        ("screenshots", JObj [("before", before); ("after", after)])].

Definition success (index : Z) (log : GenerationLog) : json :=
  JObj [("status", JStr "success");
        ("message", JStr "Log saved successfully");
        ("logIndex", JInt index);
        ("timestamp", JStr (timestamp log))].

(** The [try] block of [log_generation]. *)
Definition log_generation_try (log : GenerationLog) : M json :=
  do before <- screenshot_slot log "before";
  do after <- screenshot_slot log "after";
  do logs <- load_logs;
  do logs <- lift (Py.append logs (log_entry log before after));
  do_ dump_logs logs;
  do n <- lift (Py.len logs);
  ret (success (n - 1) log).

(** [POST /log] *)
Definition log_generation (log : GenerationLog) (st : fs) : response * fs :=
  match log_generation_try log st with
  | (Ok body, st') => (Return body, st')
  | (Raise e, st') =>
      (HTTPException 500 ("Error saving log: " +:+ exn_msg e),
       print ("Error saving log: " +:+ exn_msg e) st')
  end.

(** The [try] block of [get_logs]. *)
Definition get_logs_try (limit : Z) : M json :=
  do logs <- load_logs;
  do total <- lift (Py.len logs);
  do recent <- lift (Py.slice_from (- limit) logs);
  ret (JObj [("total", JInt total); ("logs", recent)]).

(** [GET /logs?limit=...]; without the parameter the limit is 100. *)
Definition default_limit : Z := 100.


Definition get_logs (limit : Z) (st : fs) : response * fs :=
  match get_logs_try limit st with
  | (Ok body, st') => (Return body, st')
  | (Raise e, st') =>
      (HTTPException 500 ("Error reading logs: " +:+ exn_msg e), st')
  end.

(** Submissions handled one after the other. *)
Fixpoint submit_all (logs : list GenerationLog) (st : fs) : list response * fs :=
  match logs with
  | [] => ([], st)
  | log :: rest =>
      let (r, st1) := log_generation log st in
      let (rs, st2) := submit_all rest st1 in
      (r :: rs, st2)
  end.

Definition succeeded (r : response) : Prop :=
  match r with
  | Return _ => True
  | HTTPException _ _ => False
  end.


(** The module-level start-up code, as far as the log file goes: unless a
    file is already there, one holding the empty list is created.  A file
    that exists is not read. *)
Definition startup (existing : option log_content)
    (files : gmap string (list byte)) : fs :=
  FS (match existing with
      | Some content => content
      | None => Document (JArr [])
      end) files [].

(** What a truthy or falsy slot leaves in [screenshot_paths]. *)
Definition slot_value (log : GenerationLog) (slot : string) : json :=
  if Py.truthy (Py.get slot (screenshots log))
  then JStr ("media/" +:+ timestamp_safe log +:+ "-" +:+ slot +:+ ".png")
  else JNull.

(** The [logIndex] of an answer, and the indices [n], [n + 1], ... *)
Definition response_index (r : response) : option json :=
  match r with
  | Return body => field "logIndex" body
  | HTTPException _ _ => None
  end.

Fixpoint indices_from (n : Z) (count : nat) : list (option json) :=
  match count with
  | O => []
  | S count' => Some (JInt n) :: indices_from (n + 1) count'
  end.

(** A slot that does not stop the handler: skipped, or decoded and written
    to a file that could be opened. *)
Definition slot_passes (log : GenerationLog) (slot : string) : Prop :=
  Py.truthy (Py.get slot (screenshots log)) = false \/
  exists shot data image_bytes,
    Py.get slot (screenshots log) = Some shot /\
    base64_data shot = Ok data /\
    b64decode data = Ok image_bytes /\
    open_wb (image_path (timestamp_safe log) slot) = None.

(** A slot that stops the handler with the exception [e]: its payload is
    rejected by the decoder with [e], or it decodes and opening the image
    file raises [e]. *)
Definition slot_raises (log : GenerationLog) (slot : string) (e : exn) : Prop :=
  exists shot data,
    Py.get slot (screenshots log) = Some shot /\
    shot <> EmptyString /\
    base64_data shot = Ok data /\
    (b64decode data = Raise e \/
     (exists image_bytes, b64decode data = Ok image_bytes) /\
     open_wb (image_path (timestamp_safe log) slot) = Some e).


(** The value a record stores for a slot. *)
Definition screenshot_of (slot : string) (entry : json) : option json :=
  match field "screenshots" entry with
  | Some shots => field slot shots
  | None => None
  end.

(** ** Splitting at commas *)

Lemma split_up_to_after (sep : ascii) (s : string) :
  Py.split sep s =
  Spec.up_to_first sep s ::
    (if Py.contains sep s then Py.split sep (Spec.after_first sep s) else []).
Proof.
  induction s as [|c s IH]; simpl; [reflexivity|].
  destruct (Ascii.eqb c sep); [reflexivity|].
  rewrite IH. reflexivity.
Qed.

Lemma split_without_sep (sep : ascii) (s : string) :
  Py.contains sep s = false -> Py.split sep s = [s].
Proof.
  intros H. rewrite split_up_to_after, H. f_equal.
  induction s as [|c s IH]; simpl in *; [reflexivity|].
  destruct (Ascii.eqb c sep); [discriminate|]. f_equal. auto.
Qed.

Lemma up_to_first_without_sep (sep : ascii) (s : string) :
  Py.contains sep s = false -> Spec.up_to_first sep s = s.
Proof.
  induction s as [|c s IH]; simpl; [reflexivity|].
  destruct (Ascii.eqb c sep); [discriminate|]. intros H. f_equal. auto.
Qed.

Lemma up_to_first_no_sep (sep : ascii) (s : string) :
  Py.contains sep (Spec.up_to_first sep s) = false.
Proof.
  induction s as [|c s IH]; simpl; [reflexivity|].
  destruct (Ascii.eqb c sep) eqn:E; [reflexivity|].
  simpl. rewrite E. exact IH.
Qed.

Lemma contains_app (sep : ascii) (a b : string) :
  Py.contains sep (a +:+ b) = (Py.contains sep a || Py.contains sep b)%bool.
Proof.
  induction a as [|c a IH]; simpl; [reflexivity|].
  destruct (Ascii.eqb c sep); [reflexivity|]. exact IH.
Qed.

Lemma after_first_app (sep : ascii) (a b : string) :
  Py.contains sep a = false ->
  Spec.after_first sep (a +:+ String sep b) = b.
Proof.
  induction a as [|c a IH]; simpl.
  - rewrite Ascii.eqb_refl. reflexivity.
  - destruct (Ascii.eqb c sep); [discriminate|]. exact IH.
Qed.

(** ** The characters of an encoding *)

Lemma table_b2a_in (i : Z) : In (Base64.table_b2a i) Base64.alphabet.
Proof.
  unfold Base64.table_b2a.
  destruct (nth_in_or_default (Z.to_nat i) Base64.alphabet "A"%char) as [H|H].
  - exact H.
  - rewrite H. vm_compute. auto.
Qed.

Lemma table_b2a_neq (c : ascii) (i : Z) :
  ~ In c Base64.alphabet -> Ascii.eqb (Base64.table_b2a i) c = false.
Proof.
  intros Hc. apply Ascii.eqb_neq. intros E. apply Hc. rewrite <- E.
  apply table_b2a_in.
Qed.

Lemma b64encode_contains (c : ascii) (payload : list byte) :
  ~ In c Base64.alphabet -> c <> Base64.PAD ->
  Py.contains c (Base64.b64encode payload) = false.
Proof.
  intros Hc Hp.
  assert (Epad : Ascii.eqb Base64.PAD c = false)
    by (apply Ascii.eqb_neq; congruence).
  revert payload.
  fix IH 1. intros [|a [|b [|d rest]]]; cbn [Base64.b64encode Py.contains].
  - reflexivity.
  - rewrite !table_b2a_neq, !Epad by assumption. reflexivity.
  - rewrite !table_b2a_neq, !Epad by assumption. reflexivity.
  - rewrite !table_b2a_neq by assumption. apply IH.
Qed.

Lemma not_in_alphabet_comma : ~ In ","%char Base64.alphabet.
Proof.
  intros H. vm_compute in H.
  repeat (destruct H as [H|H]; [discriminate H|]). exact H.
Qed.

Lemma b64encode_nonempty (payload : list byte) :
  payload <> [] -> Base64.b64encode payload <> EmptyString.
Proof.
  destruct payload as [|a [|b [|c rest]]]; simpl; intros H;
    [congruence | discriminate ..].
Qed.

(** ** The reference decoder inverts the encoding *)

Lemma below_forall (n : nat) (P : Z -> bool) :
  forallb P (Base64.below n) = true ->
  forall i, 0 <= i < Z.of_nat n -> P i = true.
Proof.
  intros H i Hi. rewrite forallb_forall in H. apply H.
  unfold Base64.below. apply in_map_iff. exists (Z.to_nat i). split; [lia|].
  apply in_seq. lia.
Qed.

Lemma below_forall2 (n : nat) (P : Z -> Z -> bool) :
  forallb (fun i => forallb (P i) (Base64.below n)) (Base64.below n) = true ->
  forall i j, 0 <= i < Z.of_nat n -> 0 <= j < Z.of_nat n -> P i j = true.
Proof.
  intros H i j Hi Hj.
  apply (below_forall n (P i)); [|exact Hj].
  apply (below_forall n (fun i => forallb (P i) (Base64.below n))); assumption.
Qed.

Lemma sextet_spec (i : Z) :
  0 <= i < 64 ->
  Base64.table_a2b (Base64.table_b2a i) = Some i /\
  Ascii.eqb (Base64.table_b2a i) Base64.PAD = false /\
  (N_of_ascii (Base64.table_b2a i) <? 128)%N = true.
Proof.
  intros Hi.
  assert (H : Base64.sextet_ok i = true)
    by (apply (below_forall 64 Base64.sextet_ok); [vm_compute; reflexivity | exact Hi]).
  unfold Base64.sextet_ok in H. apply andb_prop in H as [H H3].
  apply andb_prop in H as [H1 H2].
  destruct (Base64.table_a2b (Base64.table_b2a i)) as [j|]; [|discriminate].
  apply Z.eqb_eq in H1. subst j.
  apply negb_true_iff in H2. auto.
Qed.

Lemma pair_spec (a b : Z) :
  0 <= a < 256 -> 0 <= b < 256 -> Base64.pair_ok a b = true.
Proof.
  intros Ha Hb.
  apply (below_forall2 256 Base64.pair_ok); [vm_compute; reflexivity | lia | lia].
Qed.

Lemma in_sextet_spec (v : Z) : Base64.in_sextet v = true -> 0 <= v < 64.
Proof. unfold Base64.in_sextet. intros H. apply andb_prop in H as [H1 H2]. lia. Qed.

Ltac pair_facts H :=
  unfold Base64.pair_ok in H;
  repeat (let H' := fresh "F" in apply andb_prop in H as [H H']);
  repeat match goal with
         | F : Base64.in_sextet _ = true |- _ => apply in_sextet_spec in F
         | F : (_ =? _) = true |- _ => apply Z.eqb_eq in F
         | F : (_ <=? _) = true |- _ => apply Z.leb_le in F
         | F : (_ <? _) = true |- _ => apply Z.ltb_lt in F
         end.

Lemma Z_of_byte_range (b : byte) : 0 <= Base64.Z_of_byte b < 256.
Proof.
  unfold Base64.Z_of_byte. pose proof (Byte.to_N_bounded b). lia.
Qed.

Lemma byte_of_Z_of_byte (b : byte) : Base64.byte_of_Z (Base64.Z_of_byte b) = b.
Proof. destruct b; reflexivity. Qed.

Lemma a2b_data (i : Z) (s : string) (quad_pos leftchar pads : Z) (out : list byte) :
  0 <= i < 64 ->
  Base64.a2b_loop (String (Base64.table_b2a i) s) quad_pos leftchar pads out =
  if quad_pos =? 0 then Base64.a2b_loop s 1 i 0 out
  else if quad_pos =? 1 then
    Base64.a2b_loop s 2 (Z.land i 15) 0
      (out ++ [Base64.byte_of_Z (Z.lor (Z.shiftl leftchar 2) (Z.shiftr i 4))])
  else if quad_pos =? 2 then
    Base64.a2b_loop s 3 (Z.land i 3) 0
      (out ++ [Base64.byte_of_Z (Z.lor (Z.shiftl leftchar 4) (Z.shiftr i 2))])
  else
    Base64.a2b_loop s 0 0 0
      (out ++ [Base64.byte_of_Z (Z.lor (Z.shiftl leftchar 6) i)]).
Proof.
  intros Hi. destruct (sextet_spec i Hi) as (Ht & Hp & _).
  cbn [Base64.a2b_loop]. rewrite Hp, Ht. reflexivity.
Qed.

(** One group of four characters, read from the start of a group. *)
Lemma a2b_group (a b c : Z) (s : string) (out : list byte) :
  0 <= a < 256 -> 0 <= b < 256 -> 0 <= c < 256 ->
  Base64.a2b_loop
    (String (Base64.table_b2a (Base64.s1 a))
       (String (Base64.table_b2a (Base64.s2 a b))
          (String (Base64.table_b2a (Base64.s3 b c))
             (String (Base64.table_b2a (Base64.s4 c)) s)))) 0 0 0 out =
  Base64.a2b_loop s 0 0 0
    (out ++ [Base64.byte_of_Z a; Base64.byte_of_Z b; Base64.byte_of_Z c]).
Proof.
  intros Ha Hb Hc.
  pose proof (pair_spec a b Ha Hb) as Fab. pair_facts Fab.
  pose proof (pair_spec b c Hb Hc) as Fbc. pair_facts Fbc.
  pose proof (pair_spec c c Hc Hc) as Fcc. pair_facts Fcc.
  rewrite (a2b_data (Base64.s1 a)) by lia. cbn [Z.eqb].
  rewrite (a2b_data (Base64.s2 a b)) by lia. cbn [Z.eqb Pos.eqb].
  rewrite (a2b_data (Base64.s3 b c)) by lia. cbn [Z.eqb Pos.eqb].
  rewrite (a2b_data (Base64.s4 c)) by lia. cbn [Z.eqb Pos.eqb].
  rewrite <- !app_assoc. cbn [app].
  repeat match goal with F : _ = _ |- _ => rewrite F end.
  reflexivity.
Qed.

Lemma a2b_tail1 (a : Z) (out : list byte) :
  0 <= a < 256 ->
  Base64.a2b_loop
    (String (Base64.table_b2a (Base64.s1 a))
       (String (Base64.table_b2a (Z.shiftl (Z.land a 3) 4))
          (String Base64.PAD (String Base64.PAD EmptyString)))) 0 0 0 out =
  Ok (out ++ [Base64.byte_of_Z a]).
Proof.
  intros Ha.
  pose proof (pair_spec a a Ha Ha) as Faa. pair_facts Faa.
  rewrite (a2b_data (Base64.s1 a)) by lia. cbn [Z.eqb].
  rewrite (a2b_data (Z.shiftl (Z.land a 3) 4)) by lia. cbn [Z.eqb Pos.eqb].
  match goal with
  | F : Z.lor _ (Z.shiftr (Z.shiftl _ 4) 4) = _ |- _ => rewrite F
  end.
  reflexivity.
Qed.

Lemma a2b_tail2 (a b : Z) (out : list byte) :
  0 <= a < 256 -> 0 <= b < 256 ->
  Base64.a2b_loop
    (String (Base64.table_b2a (Base64.s1 a))
       (String (Base64.table_b2a (Base64.s2 a b))
          (String (Base64.table_b2a (Z.shiftl (Z.land b 15) 2))
             (String Base64.PAD EmptyString)))) 0 0 0 out =
  Ok (out ++ [Base64.byte_of_Z a; Base64.byte_of_Z b]).
Proof.
  intros Ha Hb.
  pose proof (pair_spec a b Ha Hb) as Fab. pair_facts Fab.
  pose proof (pair_spec b b Hb Hb) as Fbb. pair_facts Fbb.
  rewrite (a2b_data (Base64.s1 a)) by lia. cbn [Z.eqb].
  rewrite (a2b_data (Base64.s2 a b)) by lia. cbn [Z.eqb Pos.eqb].
  rewrite (a2b_data (Z.shiftl (Z.land b 15) 2)) by lia. cbn [Z.eqb Pos.eqb].
  rewrite <- !app_assoc. cbn [app].
  repeat match goal with F : _ = _ |- _ => rewrite F end.
  reflexivity.
Qed.

Lemma a2b_loop_b64encode (payload : list byte) :
  forall out, Base64.a2b_loop (Base64.b64encode payload) 0 0 0 out
              = Ok (out ++ payload).
Proof.
  revert payload. fix IH 1. intros [|a [|b [|c rest]]] out.
  - simpl. rewrite app_nil_r. reflexivity.
  - etransitivity; [apply a2b_tail1, Z_of_byte_range|].
    rewrite byte_of_Z_of_byte. reflexivity.
  - etransitivity; [apply a2b_tail2; apply Z_of_byte_range|].
    rewrite !byte_of_Z_of_byte. reflexivity.
  - etransitivity; [apply (a2b_group _ _ _ (Base64.b64encode rest));
                    apply Z_of_byte_range|].
    rewrite IH, !byte_of_Z_of_byte, <- app_assoc. reflexivity.
Qed.

Lemma b64encode_is_ascii (payload : list byte) :
  Base64.is_ascii (Base64.b64encode payload) = true.
Proof.
  assert (T : forall i, (N_of_ascii (Base64.table_b2a i) <? 128)%N = true).
  { intros i. pose proof (table_b2a_in i) as Hin.
    assert (A : forallb (fun c => (N_of_ascii c <? 128)%N) Base64.alphabet = true)
      by (vm_compute; reflexivity).
    rewrite forallb_forall in A. auto. }
  revert payload. fix IH 1. intros [|a [|b [|c rest]]];
    cbn [Base64.b64encode Base64.is_ascii]; rewrite ?T; try reflexivity.
  apply IH.
Qed.

(** Decoding an encoding gives the bytes back. *)
Lemma b64decode_b64encode (payload : list byte) :
  Base64.b64decode (Base64.b64encode payload) = Ok payload.
Proof.
  unfold Base64.b64decode, Base64.a2b_base64.
  rewrite b64encode_is_ascii. apply a2b_loop_b64encode.
Qed.

(** ** The token and the paths *)

Lemma replace_chain (s : string) :
  Py.replace "T" "_" (Py.replace "." "-" (Py.replace ":" "-" s)) =
  Spec.map_chars Spec.sanitize s.
Proof.
  induction s as [|c s IH]; simpl; [reflexivity|].
  rewrite IH. f_equal. unfold Spec.sanitize.
  destruct (Ascii.eqb_spec c ":") as [->|_]; [reflexivity|].
  destruct (Ascii.eqb_spec c ".") as [->|_]; reflexivity.
Qed.

Lemma timestamp_safe_spec (log : GenerationLog) :
  timestamp_safe log =
  Py.take 19 (Spec.map_chars Spec.sanitize (timestamp log)).
Proof. unfold timestamp_safe. rewrite replace_chain. reflexivity. Qed.

Lemma endswith_app (c : ascii) (a b : string) :
  b <> EmptyString -> Py.endswith c (a +:+ b) = Py.endswith c b.
Proof.
  intros Hb. induction a as [|x a IH]; [reflexivity|].
  rewrite <- IH. change (String x a +:+ b) with (String x (a +:+ b)).
  destruct (a +:+ b) eqn:E; [|reflexivity].
  destruct a; [destruct (Hb E) | discriminate].
Qed.

Lemma path_join_relative (a b : string) :
  Py.startswith "/" b = false -> b <> EmptyString ->
  Py.endswith "/" (Py.path_join a b) = Py.endswith "/" b /\
  Py.path_join a b <> EmptyString.
Proof.
  intros Hs Hb. unfold Py.path_join. rewrite Hs.
  destruct (String.eqb a "" || Py.endswith "/" a)%bool.
  - rewrite endswith_app by assumption. split; [reflexivity|].
    intros E. destruct a; [exact (Hb E) | discriminate].
  - rewrite !endswith_app by (try assumption; destruct b; discriminate).
    split; [reflexivity|]. destruct a; discriminate.
Qed.

(** The media directory is a non-empty path without a trailing separator. *)
Lemma MEDIA_DIR_shape :
  Py.endswith "/" MEDIA_DIR = false /\ MEDIA_DIR <> EmptyString.
Proof. unfold MEDIA_DIR. apply (path_join_relative LOGGER_DIR "media"); done. Qed.

(** For a token that does not begin with the separator, the image file is
    the file of that name inside the media directory. *)
Lemma image_path_inside (token slot : string) :
  Py.startswith "/" token = false ->
  image_path token slot = MEDIA_DIR +:+ "/" +:+ image_name token slot.
Proof.
  intros Ht. unfold image_path, Py.path_join.
  destruct MEDIA_DIR_shape as [He Hn].
  replace (Py.startswith "/" (image_name token slot)) with false
    by (destruct token; [reflexivity | exact (eq_sym Ht)]).
  rewrite He. destruct MEDIA_DIR; [congruence | reflexivity].
Qed.

(** A token that begins with the separator makes the file name absolute,
    and the join drops the media directory. *)
Lemma image_path_absolute (token slot : string) :
  Py.startswith "/" token = true ->
  image_path token slot = image_name token slot.
Proof.
  intros Ht. unfold image_path, Py.path_join.
  replace (Py.startswith "/" (image_name token slot)) with true
    by (destruct token; [discriminate | exact (eq_sym Ht)]).
  reflexivity.
Qed.

Lemma image_path_slots_differ (token : string) :
  image_path token "before" <> image_path token "after".
Proof.
  assert (Hn : image_name token "before" <> image_name token "after").
  { unfold image_name. intros E. apply String.app_inj in E. discriminate. }
  destruct (Py.startswith "/" token) eqn:Ht.
  - rewrite !image_path_absolute by assumption. exact Hn.
  - rewrite !image_path_inside by assumption.
    intros E. apply String.app_inj in E. apply String.app_inj in E. auto.
Qed.

(** ** The payload of a screenshot *)

Lemma base64_data_payload (shot : string) :
  base64_data shot = Ok (payload_of shot).
Proof.
  unfold base64_data, payload_of. destruct (Py.contains "," shot) eqn:Hc; [|reflexivity].
  rewrite split_up_to_after, Hc.
  rewrite (split_up_to_after _ (Spec.after_first "," shot)). reflexivity.
Qed.

(** ** One screenshot slot *)

Lemma save_screenshot_run (token slot shot : string) (st : fs) :
  save_screenshot token slot shot st =
  match b64decode (payload_of shot) with
  | Ok image_bytes =>
      match open_wb (image_path token slot) with
      | None =>
          (Ok (JStr (stored_path token slot)),
           written (image_path token slot) image_bytes st)
      | Some e => (Raise e, st)
      end
  | Raise e => (Raise e, st)
  end.
Proof.
  unfold save_screenshot, bind, lift, write_file.
  rewrite base64_data_payload.
  destruct (b64decode (payload_of shot)); [|reflexivity].
  destruct (open_wb (image_path token slot)); reflexivity.
Qed.

Lemma screenshot_slot_skipped (log : GenerationLog) (slot : string) (st : fs) :
  Py.truthy (Py.get slot (screenshots log)) = false ->
  screenshot_slot log slot st = (Ok JNull, st).
Proof.
  unfold screenshot_slot.
  destruct (Py.get slot (screenshots log)); [intros ->|]; reflexivity.
Qed.

Lemma screenshot_slot_truthy (log : GenerationLog) (slot shot : string) (st : fs) :
  Py.get slot (screenshots log) = Some shot -> shot <> EmptyString ->
  screenshot_slot log slot st = save_screenshot (timestamp_safe log) slot shot st.
Proof.
  unfold screenshot_slot. intros -> Hne.
  destruct shot; [congruence | reflexivity].
Qed.

(** Whatever a slot does, it touches neither the log file nor the printed
    lines, and no media file other than its own. *)
Lemma screenshot_slot_frame (log : GenerationLog) (slot : string) (st : fs) :
  log_file (screenshot_slot log slot st).2 = log_file st /\
  stdout (screenshot_slot log slot st).2 = stdout st /\
  forall path, path <> image_path (timestamp_safe log) slot ->
    media (screenshot_slot log slot st).2 !! path = media st !! path.
Proof.
  destruct (Py.truthy (Py.get slot (screenshots log))) eqn:Ht.
  - destruct (Py.get slot (screenshots log)) as [[|c shot]|] eqn:Hg;
      try discriminate.
    rewrite (screenshot_slot_truthy _ _ _ _ Hg) by discriminate.
    rewrite save_screenshot_run.
    destruct (b64decode _); [|simpl; auto].
    destruct (open_wb _); simpl; repeat split; auto.
    intros path Hp. apply lookup_insert_ne. congruence.
  - rewrite screenshot_slot_skipped by assumption. simpl. auto.
Qed.

(** ** Runs of the submission handler *)

(** A submission that is answered with a body went through both slots,
    found a list in the log file, and wrote that list back with its entry
    added at the end. *)
Lemma log_generation_success (log : GenerationLog) (st st' : fs) (body : json) :
  log_generation log st = (Return body, st') ->
  exists before st1 after st2 old,
    screenshot_slot log "before" st = (Ok before, st1) /\
    screenshot_slot log "after" st1 = (Ok after, st2) /\
    log_file st2 = Document (JArr old) /\
    st' = appended (log_entry log before after) old st2 /\
    body = success (Z.of_nat (length (old ++ [log_entry log before after])) - 1) log.
Proof.
  unfold log_generation, log_generation_try, bind.
  destruct (screenshot_slot log "before" st) as [[before|e] st1] eqn:Hb;
    [|discriminate].
  destruct (screenshot_slot log "after" st1) as [[after|e] st2] eqn:Ha;
    [|discriminate].
  unfold load_logs. destruct (log_file st2) as [e|logs] eqn:Hl; [discriminate|].
  destruct logs; try discriminate.
  simpl. intros H. injection H as <- <-.
  exists before, st1, after, st2, items. auto.
Qed.


Lemma log_generation_before_raises (log : GenerationLog) (st st1 : fs) (e : exn) :
  screenshot_slot log "before" st = (Raise e, st1) ->
  log_generation log st =
  (HTTPException 500 ("Error saving log: " +:+ exn_msg e),
   print ("Error saving log: " +:+ exn_msg e) st1).
Proof.
  intros Hb. unfold log_generation, log_generation_try, bind.
  rewrite Hb. reflexivity.
Qed.

(** ** Properties of [POST /log] *)

(** C2 (as amended).  For a screenshot value that is present and not empty,
    the text that is base64-decoded is the field between the first comma and
    the next comma; it is all the text after the first comma exactly when
    there is no second comma.  A value without a comma is decoded whole.
    The decoded bytes are written to the image file of the slot when that
    file can be opened; a decoding error or an error of [open] is raised
    and leaves the state as it was. *)
Theorem screenshot_decodes_second_field
    (log : GenerationLog) (slot shot : string) (st : fs) :
  Py.get slot (screenshots log) = Some shot ->
  shot <> EmptyString ->
  base64_data shot =
    Ok (if Py.contains "," shot
        then Spec.up_to_first "," (Spec.after_first "," shot)
        else shot) /\
  (Py.contains "," shot = true ->
   (base64_data shot = Ok (Spec.after_first "," shot) <->
    Py.contains "," (Spec.after_first "," shot) = false)) /\
  screenshot_slot log slot st =
    match base64_data shot with
    | Ok data =>
        match b64decode data with
        | Ok image_bytes =>
            match open_wb (image_path (timestamp_safe log) slot) with
            | None =>
                (Ok (JStr (stored_path (timestamp_safe log) slot)),
                 written (image_path (timestamp_safe log) slot) image_bytes st)
            | Some e => (Raise e, st)
            end
        | Raise e => (Raise e, st)
        end
    | Raise e => (Raise e, st)
    end.
Proof.
  intros Hg Hne. split; [apply base64_data_payload|]. split.
  - intros Hc. rewrite base64_data_payload. unfold payload_of. rewrite Hc.
    split.
    + intros E. injection E as E. rewrite <- E. apply up_to_first_no_sep.
    + intros Hc'. rewrite up_to_first_without_sep by assumption. reflexivity.
  - rewrite (screenshot_slot_truthy _ _ _ _ Hg Hne), save_screenshot_run.
    rewrite base64_data_payload. reflexivity.
Qed.

(** C3 (as amended).  When [screenshots.before] is a non-empty text whose
    payload the decoder rejects, the submission is answered with status 500
    and the detail [Error saving log: ] followed by the decoder's message;
    the log file and the media files are left as they were. *)
Theorem rejected_before_leaves_log
    (log : GenerationLog) (st : fs) (shot data : string) (e : exn) :
  Py.get "before" (screenshots log) = Some shot ->
  shot <> EmptyString ->
  base64_data shot = Ok data ->
  b64decode data = Raise e ->
  (log_generation log st).1 =
    HTTPException 500 ("Error saving log: " +:+ exn_msg e) /\
  log_file (log_generation log st).2 = log_file st /\
  media (log_generation log st).2 = media st.
Proof.
  intros Hg Hne Hd He.
  assert (Hb : screenshot_slot log "before" st = (Raise e, st)).
  { rewrite (screenshot_slot_truthy _ _ _ _ Hg Hne), save_screenshot_run.
    rewrite base64_data_payload in Hd. injection Hd as ->. rewrite He.
    reflexivity. }
  rewrite (log_generation_before_raises _ _ _ _ Hb). auto.
Qed.


(** C6.  A submission that succeeds found a list of records in the log file
    and leaves a list of records there: every record stored before is still
    at its position, and the one new record, the entry of this submission,
    is the last. *)
Theorem successful_submit_appends
    (log : GenerationLog) (st st' : fs) (body : json) :
  log_generation log st = (Return body, st') ->
  exists old entry before after,
    log_file st = Document (JArr old) /\
    log_file st' = Document (JArr (old ++ [entry])) /\
    (forall i record, old !! i = Some record ->
                      (old ++ [entry]) !! i = Some record) /\
    (old ++ [entry]) !! length old = Some entry /\
    length (old ++ [entry]) = S (length old) /\
    entry = log_entry log before after.
Proof.
  intros H.
  destruct (log_generation_success _ _ _ _ H)
    as (before & st1 & after & st2 & old & Hb & Ha & Hl & -> & _).
  exists old, (log_entry log before after), before, after.
  pose proof (screenshot_slot_frame log "before" st) as (Fb & _).
  pose proof (screenshot_slot_frame log "after" st1) as (Fa & _).
  rewrite Hb in Fb. rewrite Ha in Fa. simpl in Fb, Fa.
  repeat split.
  - congruence.
  - intros i record Hi. apply lookup_app_l_Some. exact Hi.
  - apply list_lookup_middle. reflexivity.
  - rewrite length_app. simpl. lia.
Qed.

(** C8.  A submission that succeeds is answered with status [success], the
    timestamp the client sent, and as [logIndex] the length of the log after
    the append minus one, which is the position of the new record. *)
Theorem success_response_index
    (log : GenerationLog) (st st' : fs) (body : json) :
  log_generation log st = (Return body, st') ->
  exists records entry,
    log_file st' = Document (JArr records) /\
    body = JObj [("status", JStr "success");
                 ("message", JStr "Log saved successfully");
                 ("logIndex", JInt (Z.of_nat (length records) - 1));
                 ("timestamp", JStr (timestamp log))] /\
    records !! Z.to_nat (Z.of_nat (length records) - 1) = Some entry /\
    field "timestamp" entry = Some (JStr (timestamp log)).
Proof.
  intros H.
  destruct (log_generation_success _ _ _ _ H)
    as (before & st1 & after & st2 & old & _ & _ & _ & -> & ->).
  exists (old ++ [log_entry log before after]), (log_entry log before after).
  repeat split.
  rewrite length_app. simpl.
  replace (Z.to_nat (Z.of_nat (length old + 1) - 1)) with (length old) by lia.
  apply list_lookup_middle. reflexivity.
Qed.

(** ** Submissions that differ in their screenshots only *)

Lemma with_screenshots_same (log : GenerationLog) :
  with_screenshots log (screenshots log) = log.
Proof. destruct log; reflexivity. Qed.

Lemma screenshot_slot_ext
    (log : GenerationLog) (shots1 shots2 : gmap string (option string))
    (slot : string) (st : fs) :
  Py.get slot shots1 = Py.get slot shots2 ->
  screenshot_slot (with_screenshots log shots1) slot st =
  screenshot_slot (with_screenshots log shots2) slot st.
Proof. unfold screenshot_slot. simpl. intros ->. reflexivity. Qed.

Lemma log_generation_same_slots
    (log : GenerationLog) (shots1 shots2 : gmap string (option string)) (st : fs) :
  (forall slot st,
     screenshot_slot (with_screenshots log shots1) slot st =
     screenshot_slot (with_screenshots log shots2) slot st) ->
  log_generation (with_screenshots log shots1) st =
  log_generation (with_screenshots log shots2) st.
Proof.
  intros H. unfold log_generation, log_generation_try, bind.
  rewrite (H "before" st).
  destruct (screenshot_slot (with_screenshots log shots2) "before" st)
    as [[before|e] st1]; [|reflexivity].
  rewrite (H "after" st1). reflexivity.
Qed.

Lemma get_insert_eq (slot : string) (v : option string)
    (shots : gmap string (option string)) :
  Py.get slot (<[slot := v]> shots) = v.
Proof. unfold Py.get. rewrite lookup_insert_eq. reflexivity. Qed.

Lemma get_insert_ne (slot k : string) (v : option string)
    (shots : gmap string (option string)) :
  slot <> k -> Py.get k (<[slot := v]> shots) = Py.get k shots.
Proof. intros H. unfold Py.get. rewrite lookup_insert_ne by exact H. reflexivity. Qed.

Lemma get_delete_eq (slot : string) (shots : gmap string (option string)) :
  Py.get slot (delete slot shots) = None.
Proof. unfold Py.get. rewrite lookup_delete_eq. reflexivity. Qed.

Lemma get_delete_ne (slot k : string) (shots : gmap string (option string)) :
  slot <> k -> Py.get k (delete slot shots) = Py.get k shots.
Proof. intros H. unfold Py.get. rewrite lookup_delete_ne by exact H. reflexivity. Qed.

(** The media files after a submission are those left by its slots. *)
Lemma log_generation_media (log : GenerationLog) (st : fs) (path : string) :
  (Py.truthy (Py.get "before" (screenshots log)) = true ->
   path <> image_path (timestamp_safe log) "before") ->
  (Py.truthy (Py.get "after" (screenshots log)) = true ->
   path <> image_path (timestamp_safe log) "after") ->
  media (log_generation log st).2 !! path = media st !! path.
Proof.
  intros Hb Ha.
  assert (Slot : forall slot st0,
    (Py.truthy (Py.get slot (screenshots log)) = true ->
     path <> image_path (timestamp_safe log) slot) ->
    media (screenshot_slot log slot st0).2 !! path = media st0 !! path).
  { intros slot st0 Hs.
    destruct (Py.truthy (Py.get slot (screenshots log))) eqn:Ht.
    - apply screenshot_slot_frame. auto.
    - rewrite screenshot_slot_skipped by assumption. reflexivity. }
  specialize (Slot "before" st Hb) as Sb.
  unfold log_generation, log_generation_try, bind.
  destruct (screenshot_slot log "before" st) as [[before|e] st1];
    [|exact Sb].
  specialize (Slot "after" st1 Ha) as Sa. simpl in Sb.
  destruct (screenshot_slot log "after" st1) as [[after|e] st2];
    simpl in Sa; [|simpl; congruence].
  unfold load_logs. destruct (log_file st2) as [e|[]]; simpl; congruence.
Qed.

(** C9 (as amended).  For every byte sequence that is not empty, a
    submission that carries its base64 encoding bare and the same submission
    carrying it behind [data:image/png;base64,] get the same answer and
    leave the same state, so the image files they write have the same
    contents. *)
Theorem raw_and_data_uri_agree
    (log : GenerationLog) (slot : string) (payload : list byte) (st : fs) :
  payload <> [] ->
  log_generation
    (with_screenshots log
       (<[slot := Some (Base64.b64encode payload)]> (screenshots log))) st =
  log_generation
    (with_screenshots log
       (<[slot := Some (Spec.data_uri (Base64.b64encode payload))]>
          (screenshots log))) st.
Proof.
  intros Hne. apply log_generation_same_slots. intros k st0.
  destruct (decide (slot = k)) as [<-|Hk].
  - pose proof (b64encode_nonempty payload Hne) as Hraw.
    pose proof (b64encode_contains ","%char payload
                  not_in_alphabet_comma ltac:(discriminate)) as Hc.
    rewrite (screenshot_slot_truthy _ slot (Base64.b64encode payload))
      by (simpl; auto using get_insert_eq).
    rewrite (screenshot_slot_truthy _ slot
               (Spec.data_uri (Base64.b64encode payload)))
      by (simpl; auto using get_insert_eq; discriminate).
    rewrite !save_screenshot_run. simpl.
    replace (payload_of (Spec.data_uri (Base64.b64encode payload)))
      with (payload_of (Base64.b64encode payload)); [reflexivity|].
    unfold payload_of at 1. rewrite Hc.
    unfold payload_of, Spec.data_uri.
    change ("data:image/png;base64," +:+ Base64.b64encode payload)
      with ("data:image/png;base64" +:+ String "," (Base64.b64encode payload)).
    rewrite contains_app. simpl Py.contains at 2. rewrite orb_true_r.
    rewrite after_first_app by reflexivity.
    rewrite up_to_first_without_sep by exact Hc. reflexivity.
  - apply screenshot_slot_ext. rewrite !get_insert_ne by exact Hk. reflexivity.
Qed.

(** C10.  A [before] or [after] screenshot that is present as the empty
    string is handled as a null or a missing one: the submission gets the
    same answer and leaves the same state, the image file of the slot is not
    written, and the record that is appended stores null for the slot. *)
Theorem empty_screenshot_as_absent
    (log : GenerationLog) (slot : string) (st : fs) :
  slot = "before" \/ slot = "after" ->
  screenshots log !! slot = Some (Some EmptyString) ->
  log_generation log st =
    log_generation
      (with_screenshots log (<[slot := None]> (screenshots log))) st /\
  log_generation log st =
    log_generation (with_screenshots log (delete slot (screenshots log))) st /\
  media (log_generation log st).2 !! image_path (timestamp_safe log) slot =
    media st !! image_path (timestamp_safe log) slot /\
  forall body st',
    log_generation log st = (Return body, st') ->
    exists old entry shots,
      log_file st' = Document (JArr (old ++ [entry])) /\
      field "screenshots" entry = Some shots /\
      field slot shots = Some JNull.
Proof.
  intros Hslot Hempty.
  assert (Hget : Py.get slot (screenshots log) = Some EmptyString)
    by (unfold Py.get; rewrite Hempty; reflexivity).
  assert (Same : forall shots,
    Py.get slot shots = None ->
    (forall k, slot <> k -> Py.get k shots = Py.get k (screenshots log)) ->
    log_generation log st = log_generation (with_screenshots log shots) st).
  { intros shots Hs Hk.
    rewrite <- (with_screenshots_same log) at 1.
    apply log_generation_same_slots. intros k st0.
    destruct (decide (slot = k)) as [<-|Hne].
    - rewrite !screenshot_slot_skipped; [reflexivity | |]; simpl.
      + rewrite Hs. reflexivity.
      + rewrite Hget. reflexivity.
    - apply screenshot_slot_ext. symmetry. auto. }
  split; [|split; [|split]].
  - apply Same; [apply get_insert_eq | intros; apply get_insert_ne; assumption].
  - apply Same; [apply get_delete_eq | intros; apply get_delete_ne; assumption].
  - apply log_generation_media; destruct Hslot; subst slot;
      rewrite ?Hget; try discriminate; intros _;
      auto using image_path_slots_differ.
  - intros body st' H.
    destruct (log_generation_success _ _ _ _ H)
      as (before & st1 & after & st2 & old & Hb & Ha & _ & -> & _).
    destruct Hslot; subst slot.
    + rewrite screenshot_slot_skipped in Hb by (rewrite Hget; reflexivity).
      injection Hb as <- <-.
      exists old, (log_entry log JNull after),
        (JObj [("before", JNull); ("after", after)]). auto.
    + rewrite screenshot_slot_skipped in Ha by (rewrite Hget; reflexivity).
      injection Ha as <- <-.
      exists old, (log_entry log before JNull),
        (JObj [("before", before); ("after", JNull)]). auto.
Qed.

(** ** Properties of [GET /logs] *)

Lemma slice_start_last (limit : Z) (n : nat) :
  0 < limit ->
  Py.slice_start (- limit) (Z.of_nat n) = (n - Z.to_nat limit)%nat.
Proof.
  intros H. unfold Py.slice_start.
  destruct (Z.ltb_spec (- limit) 0); lia.
Qed.

(** C4.  On a log of [M] records, [GET /logs] with a positive limit [N]
    answers with [total = M] and the last [N] records in stored order,
    oldest first: exactly [N] of them when [N < M], and all [M] records when
    [N >= M]. *)
Theorem get_logs_returns_last (st : fs) (records : list json) (limit : Z) :
  log_file st = Document (JArr records) ->
  0 < limit ->
  exists window,
    get_logs limit st =
      (Return (JObj [("total", JInt (Z.of_nat (length records)));
                     ("logs", JArr window)]), st) /\
    window = Spec.last_records (Z.to_nat limit) records /\
    (exists older, records = older ++ window) /\
    (limit < Z.of_nat (length records) -> Z.of_nat (length window) = limit) /\
    (Z.of_nat (length records) <= limit -> window = records).
Proof.
  intros Hl Hpos. exists (Spec.last_records (Z.to_nat limit) records).
  unfold Spec.last_records. repeat split.
  - unfold get_logs, get_logs_try, bind, load_logs. rewrite Hl. simpl.
    rewrite slice_start_last by exact Hpos. reflexivity.
  - exists (List.firstn (length records - Z.to_nat limit) records).
    symmetry. apply firstn_skipn.
  - intros Hlt. rewrite List.length_skipn. lia.
  - intros Hge.
    replace (length records - Z.to_nat limit)%nat with 0%nat by lia.
    reflexivity.
Qed.


(** With limit 0 the slice starts at index 0: the whole log is returned. *)
Lemma get_logs_limit_zero (st : fs) (records : list json) :
  log_file st = Document (JArr records) ->
  get_logs 0 st =
  (Return (JObj [("total", JInt (Z.of_nat (length records)));
                 ("logs", JArr records)]), st).
Proof.
  intros Hl. unfold get_logs, get_logs_try, bind, load_logs. rewrite Hl.
  simpl.
  replace (Py.slice_start (- 0) (Z.of_nat (length records))) with 0%nat
    by (unfold Py.slice_start; simpl; lia).
  reflexivity.
Qed.

(** ** The log over several submissions *)

Lemma log_generation_appends (log : GenerationLog) (st st' : fs) (body : json) :
  log_generation log st = (Return body, st') ->
  exists old before after,
    log_file st = Document (JArr old) /\
    log_file st' = Document (JArr (old ++ [log_entry log before after])).
Proof.
  intros H.
  destruct (log_generation_success _ _ _ _ H)
    as (before & st1 & after & st2 & old & Hb & Ha & Hl & -> & _).
  exists old, before, after.
  pose proof (screenshot_slot_frame log "before" st) as (Fb & _).
  pose proof (screenshot_slot_frame log "after" st1) as (Fa & _).
  rewrite Hb in Fb. rewrite Ha in Fa. simpl in Fb, Fa.
  split; [congruence | reflexivity].
Qed.



(** X17.  Submissions that all succeed leave their records behind the old
    ones, in the order in which they were received. *)
Lemma submissions_in_order (logs : list GenerationLog) :
  forall (st st' : fs) (rs : list response) (old : list json),
    log_file st = Document (JArr old) ->
    submit_all logs st = (rs, st') ->
    Forall succeeded rs ->
    exists entries,
      log_file st' = Document (JArr (old ++ entries)) /\
      map (field "timestamp") entries =
      map (fun log => Some (JStr (timestamp log))) logs.
Proof.
  induction logs as [|log rest IH]; intros st st' rs old Hl Hrun Hok.
  - injection Hrun as <- <-. exists []. rewrite app_nil_r. auto.
  - simpl in Hrun.
    destruct (log_generation log st) as [r st1] eqn:E1.
    destruct (submit_all rest st1) as [rs' st2] eqn:E2.
    injection Hrun as <- <-.
    apply Forall_cons_1 in Hok as [Hr Hrest].
    destruct r as [body|]; [|destruct Hr].
    destruct (log_generation_appends _ _ _ _ E1)
      as (old' & before & after & Hold & Hnew).
    assert (old' = old) as -> by congruence.
    destruct (IH _ _ _ _ Hnew E2 Hrest) as (entries & Hfin & Hts).
    exists (log_entry log before after :: entries).
    rewrite <- app_assoc in Hfin. split; [exact Hfin|].
    simpl. rewrite Hts. reflexivity.
Qed.

(** ** The image file of the first slot *)

Lemma payload_of_encoding (payload : list byte) :
  payload_of (Base64.b64encode payload) = Base64.b64encode payload.
Proof.
  unfold payload_of.
  rewrite (b64encode_contains ","%char payload not_in_alphabet_comma)
    by discriminate.
  reflexivity.
Qed.

Lemma payload_of_data_uri (payload : list byte) :
  payload_of (Spec.data_uri (Base64.b64encode payload))
  = Base64.b64encode payload.
Proof.
  pose proof (b64encode_contains ","%char payload
                not_in_alphabet_comma ltac:(discriminate)) as Hc.
  unfold payload_of, Spec.data_uri.
  change ("data:image/png;base64," +:+ Base64.b64encode payload)
    with ("data:image/png;base64" +:+ String "," (Base64.b64encode payload)).
  rewrite contains_app. simpl Py.contains at 2. rewrite orb_true_r.
  rewrite after_first_app by reflexivity.
  apply up_to_first_without_sep. exact Hc.
Qed.

(** A [before] screenshot that decodes, with an image file that can be
    opened, is in that file when the handler is done, whatever happens
    afterwards. *)
Lemma before_image_written
    (log : GenerationLog) (st : fs) (shot : string) (image_bytes : list byte) :
  Py.get "before" (screenshots log) = Some shot ->
  shot <> EmptyString ->
  b64decode (payload_of shot) = Ok image_bytes ->
  open_wb (image_path (timestamp_safe log) "before") = None ->
  media (log_generation log st).2 !! image_path (timestamp_safe log) "before"
  = Some image_bytes.
Proof.
  intros Hg Hne Hd Ho.
  unfold log_generation, log_generation_try, bind.
  rewrite (screenshot_slot_truthy _ _ _ _ Hg Hne), save_screenshot_run, Hd, Ho.
  set (st1 := written _ _ st).
  assert (H1 : media st1 !! image_path (timestamp_safe log) "before"
               = Some image_bytes) by apply lookup_insert_eq.
  clearbody st1.
  pose proof (screenshot_slot_frame log "after" st1) as (_ & _ & Fa).
  specialize (Fa _ (image_path_slots_differ (timestamp_safe log))).
  destruct (screenshot_slot log "after" st1) as [[after|e] st2];
    simpl in Fa; [|simpl; congruence].
  unfold load_logs. destruct (log_file st2) as [e|[]]; simpl; congruence.
Qed.

(** ** How a slot ends *)

Lemma screenshot_slot_ok
    (log : GenerationLog) (slot : string) (st st1 : fs) (v : json) :
  screenshot_slot log slot st = (Ok v, st1) ->
  (Py.truthy (Py.get slot (screenshots log)) = false /\ v = JNull /\ st1 = st) \/
  (exists shot image_bytes,
      Py.get slot (screenshots log) = Some shot /\
      shot <> EmptyString /\
      b64decode (payload_of shot) = Ok image_bytes /\
      open_wb (image_path (timestamp_safe log) slot) = None /\
      v = JStr (stored_path (timestamp_safe log) slot) /\
      st1 = written (image_path (timestamp_safe log) slot) image_bytes st).
Proof.
  destruct (Py.truthy (Py.get slot (screenshots log))) eqn:Ht.
  - destruct (Py.get slot (screenshots log)) as [[|c shot]|] eqn:Hg;
      try discriminate.
    rewrite (screenshot_slot_truthy _ _ _ _ Hg) by discriminate.
    rewrite save_screenshot_run.
    destruct (b64decode (payload_of (String c shot))) as [image_bytes|e] eqn:Hd;
      [|discriminate].
    destruct (open_wb (image_path (timestamp_safe log) slot)) eqn:Ho;
      [discriminate|].
    intros H. injection H as <- <-. right.
    exists (String c shot), image_bytes. repeat split; auto; discriminate.
  - rewrite screenshot_slot_skipped by assumption.
    intros H. injection H as <- <-. left. auto.
Qed.

Lemma screenshot_slot_raises
    (log : GenerationLog) (slot : string) (st st1 : fs) (e : exn) :
  screenshot_slot log slot st = (Raise e, st1) ->
  st1 = st /\ slot_raises log slot e.
Proof.
  destruct (Py.truthy (Py.get slot (screenshots log))) eqn:Ht.
  - destruct (Py.get slot (screenshots log)) as [[|c shot]|] eqn:Hg;
      try discriminate.
    rewrite (screenshot_slot_truthy _ _ _ _ Hg) by discriminate.
    rewrite save_screenshot_run.
    destruct (b64decode (payload_of (String c shot))) as [image_bytes|e'] eqn:Hd.
    + destruct (open_wb (image_path (timestamp_safe log) slot)) eqn:Ho;
        [|discriminate].
      intros H. injection H as <- <-. split; [reflexivity|].
      exists (String c shot), (payload_of (String c shot)).
      repeat split; auto using base64_data_payload; try discriminate.
      right. eauto.
    + intros H. injection H as <- <-. split; [reflexivity|].
      exists (String c shot), (payload_of (String c shot)).
      repeat split; auto using base64_data_payload; discriminate.
  - rewrite screenshot_slot_skipped by assumption. discriminate.
Qed.

Lemma slot_value_of_run
    (log : GenerationLog) (slot : string) (st st1 : fs) (v : json) :
  screenshot_slot log slot st = (Ok v, st1) -> v = slot_value log slot.
Proof.
  intros H. unfold slot_value.
  destruct (screenshot_slot_ok _ _ _ _ _ H)
    as [(Ht & -> & _) | (shot & image_bytes & Hg & Hne & _ & _ & -> & _)].
  - rewrite Ht. reflexivity.
  - rewrite Hg. destruct shot; [congruence | reflexivity].
Qed.


Lemma slot_passes_run (log : GenerationLog) (slot : string) (st : fs) :
  slot_passes log slot ->
  exists v st1, screenshot_slot log slot st = (Ok v, st1) /\
                log_file st1 = log_file st.
Proof.
  intros [Ht | (shot & data & image_bytes & Hg & Hd & Hb & Ho)].
  - exists JNull, st. rewrite screenshot_slot_skipped by assumption. auto.
  - rewrite base64_data_payload in Hd. injection Hd as <-.
    destruct shot as [|c shot].
    + exists JNull, st.
      rewrite screenshot_slot_skipped by (rewrite Hg; reflexivity). auto.
    + eexists _, _.
      rewrite (screenshot_slot_truthy _ _ _ _ Hg) by discriminate.
      rewrite save_screenshot_run, Hb, Ho. split; reflexivity.
Qed.

Lemma string_app_assoc (a b c : string) : (a +:+ b) +:+ c = a +:+ (b +:+ c).
Proof.
  induction a as [|x a IH]; [reflexivity|].
  change (String x ((a +:+ b) +:+ c) = String x (a +:+ (b +:+ c))).
  rewrite IH. reflexivity.
Qed.

Lemma LOGGER_DIR_shape :
  Py.endswith "/" LOGGER_DIR = false /\ LOGGER_DIR <> EmptyString.
Proof.
  unfold LOGGER_DIR.
  apply (path_join_relative (Py.path_join SCRIPT_DIR "..") "logger_data"); done.
Qed.

Lemma MEDIA_DIR_inside : MEDIA_DIR = LOGGER_DIR +:+ "/media".
Proof.
  unfold MEDIA_DIR, Py.path_join. destruct LOGGER_DIR_shape as [He Hn].
  rewrite He. destruct LOGGER_DIR; [congruence | reflexivity].
Qed.

Lemma token_relative (log : GenerationLog) :
  Py.startswith "/" (timestamp log) = false ->
  Py.startswith "/" (timestamp_safe log) = false.
Proof.
  intros Hs. unfold timestamp_safe.
  destruct (timestamp log) as [|c rest]; [reflexivity|]. simpl in *.
  destruct (Ascii.eqb_spec c ":") as [->|_]; [reflexivity|].
  destruct (Ascii.eqb_spec c ".") as [->|_]; [reflexivity|].
  destruct (Ascii.eqb_spec c "T") as [->|_]; [reflexivity|].
  exact Hs.
Qed.

(** The path stored in a record, read from the logger directory, is the
    path the image was written to. *)
Lemma stored_path_resolves (token slot : string) :
  Py.startswith "/" token = false ->
  Py.path_join LOGGER_DIR (stored_path token slot) = image_path token slot.
Proof.
  intros Ht. rewrite image_path_inside by exact Ht.
  rewrite MEDIA_DIR_inside, string_app_assoc.
  unfold Py.path_join, stored_path. destruct LOGGER_DIR_shape as [He Hn].
  change (Py.startswith "/" ("media/" +:+ image_name token slot)) with false.
  rewrite He. destruct LOGGER_DIR; [congruence | reflexivity].
Qed.

Lemma slot_keeps_files
    (log : GenerationLog) (slot path : string) (st : fs) :
  is_Some (media st !! path) ->
  is_Some (media (screenshot_slot log slot st).2 !! path).
Proof.
  intros Hp.
  destruct (screenshot_slot log slot st) as [[v|e] st1] eqn:E.
  - destruct (screenshot_slot_ok _ _ _ _ _ E)
      as [(_ & _ & ->) | (shot & image_bytes & _ & _ & _ & _ & _ & ->)];
      [exact Hp|].
    simpl. destruct (decide (image_path (timestamp_safe log) slot = path))
      as [<-|Hne].
    + rewrite lookup_insert_eq. eauto.
    + rewrite lookup_insert_ne by exact Hne. exact Hp.
  - destruct (screenshot_slot_raises _ _ _ _ _ E) as [-> _]. exact Hp.
Qed.

(** The media files after a submission are those its slots left. *)
Lemma log_generation_media_steps (log : GenerationLog) (st : fs) :
  media (log_generation log st).2 =
    media (screenshot_slot log "after" (screenshot_slot log "before" st).2).2 \/
  media (log_generation log st).2 = media (screenshot_slot log "before" st).2.
Proof.
  unfold log_generation, log_generation_try, bind.
  destruct (screenshot_slot log "before" st) as [[before|e] st1];
    [|right; reflexivity].
  left. simpl.
  destruct (screenshot_slot log "after" st1) as [[after|e] st2];
    [|reflexivity].
  unfold load_logs. destruct (log_file st2) as [e|[]]; reflexivity.
Qed.

(** ** Further properties of [POST /log] *)


(** X2.  The handler is not transactional: when the [before] screenshot
    decodes and its image file can be opened, and the [after] screenshot is
    rejected by the decoder, the submission is refused and the log file is
    unchanged, but the [before] image has been written and stays; no
    [after] image is written. *)
Theorem before_image_stays_when_after_is_rejected
    (log : GenerationLog) (st : fs) (shot1 data1 shot2 data2 : string)
    (image_bytes : list byte) (e : exn) :
  Py.get "before" (screenshots log) = Some shot1 -> shot1 <> EmptyString ->
  base64_data shot1 = Ok data1 -> b64decode data1 = Ok image_bytes ->
  open_wb (image_path (timestamp_safe log) "before") = None ->
  Py.get "after" (screenshots log) = Some shot2 -> shot2 <> EmptyString ->
  base64_data shot2 = Ok data2 -> b64decode data2 = Raise e ->
  (log_generation log st).1 =
    HTTPException 500 ("Error saving log: " +:+ exn_msg e) /\
  log_file (log_generation log st).2 = log_file st /\
  media (log_generation log st).2 !! image_path (timestamp_safe log) "before"
    = Some image_bytes /\
  media (log_generation log st).2 !! image_path (timestamp_safe log) "after"
    = media st !! image_path (timestamp_safe log) "after".
Proof.
  intros Hg1 Hn1 Hd1 Hb1 Ho1 Hg2 Hn2 Hd2 Hb2.
  rewrite base64_data_payload in Hd1, Hd2.
  injection Hd1 as <-. injection Hd2 as <-.
  unfold log_generation, log_generation_try, bind.
  rewrite (screenshot_slot_truthy _ _ _ _ Hg1 Hn1), save_screenshot_run, Hb1,
    Ho1.
  rewrite (screenshot_slot_truthy _ _ _ _ Hg2 Hn2), save_screenshot_run, Hb2.
  simpl. repeat split.
  - apply lookup_insert_eq.
  - apply lookup_insert_ne, image_path_slots_differ.
Qed.


(** X4.  With both slots passing, a log file that cannot be read or parsed
    is reported with the text of that exception, and a log file that holds a
    document other than a list is reported as having no [append]; in both
    cases the log file is left as it was. *)
Theorem broken_log_is_reported (log : GenerationLog) (st : fs) :
  slot_passes log "before" -> slot_passes log "after" ->
  (forall e, log_file st = Unreadable e ->
     (log_generation log st).1 =
       HTTPException 500 ("Error saving log: " +:+ exn_msg e)) /\
  (forall j, log_file st = Document j -> (forall items, j <> JArr items) ->
     (log_generation log st).1 =
       HTTPException 500
         ("Error saving log: '" +:+ type_name j
          +:+ "' object has no attribute 'append'")) /\
  ((forall items, log_file st <> Document (JArr items)) ->
     log_file (log_generation log st).2 = log_file st).
Proof.
  intros Pb Pa.
  destruct (slot_passes_run log "before" st Pb) as (before & st1 & Hb & Fb).
  destruct (slot_passes_run log "after" st1 Pa) as (after & st2 & Ha & Fa).
  assert (F2 : log_file st2 = log_file st) by congruence.
  unfold log_generation, log_generation_try, bind, load_logs.
  rewrite Hb, Ha, F2. repeat split.
  - intros e ->. reflexivity.
  - intros j -> Hj. destruct j; try reflexivity. destruct (Hj items eq_refl).
  - intros Hn. destruct (log_file st) as [e|j] eqn:Hl; [simpl; congruence|].
    destruct j; simpl; congruence.
Qed.

(** X5.  The record appended by an accepted submission holds the five
    request fields as sent and, for each slot, the relative path
    [media/<token>-<slot>.png] when the slot was truthy and null otherwise;
    the base64 text itself is not stored.  Nothing is printed. *)
Theorem stored_record_shape
    (log : GenerationLog) (st st' : fs) (body : json) :
  log_generation log st = (Return body, st') ->
  exists old,
    log_file st' =
      Document
        (JArr (old ++
           [JObj [("timestamp", JStr (timestamp log));
                  ("designPrompt", JStr (designPrompt log));
                  ("figmaDOM", JObj (figmaDOM log));
                  ("descriptionAPI", of_optional (JObj <$> descriptionAPI log));
                  ("generationAPI", of_optional (JObj <$> generationAPI log));
                  ("screenshots",
                   JObj [("before", slot_value log "before");
                         ("after", slot_value log "after")])]])) /\
    stdout st' = stdout st.
Proof.
  intros H.
  destruct (log_generation_success _ _ _ _ H)
    as (before & st1 & after & st2 & old & Hb & Ha & Hl & -> & _).
  pose proof (screenshot_slot_frame log "before" st) as (_ & Ob & _).
  pose proof (screenshot_slot_frame log "after" st1) as (_ & Oa & _).
  rewrite Hb in Ob. rewrite Ha in Oa. simpl in Ob, Oa.
  rewrite (slot_value_of_run _ _ _ _ _ Hb), (slot_value_of_run _ _ _ _ _ Ha).
  exists old. split; [reflexivity | simpl; congruence].
Qed.

(** X6.  After an accepted submission whose timestamp does not begin with
    the path separator, the path stored in the record for a truthy slot,
    read from the logger directory, names a file that exists and holds the
    decoded bytes of that slot. *)
Theorem stored_path_names_image
    (log : GenerationLog) (st st' : fs) (body : json) (slot shot : string) :
  log_generation log st = (Return body, st') ->
  slot = "before" \/ slot = "after" ->
  Py.get slot (screenshots log) = Some shot ->
  shot <> EmptyString ->
  Py.startswith "/" (timestamp log) = false ->
  exists data image_bytes,
    base64_data shot = Ok data /\
    b64decode data = Ok image_bytes /\
    media st' !! Py.path_join LOGGER_DIR (stored_path (timestamp_safe log) slot)
      = Some image_bytes.
Proof.
  intros H Hslot Hg Hne Hs.
  rewrite stored_path_resolves by (apply token_relative; exact Hs).
  destruct (log_generation_success _ _ _ _ H)
    as (before & st1 & after & st2 & old & Hb & Ha & _ & -> & _).
  assert (Truthy : Py.truthy (Py.get slot (screenshots log)) = true)
    by (rewrite Hg; destruct shot; [congruence | reflexivity]).
  destruct Hslot; subst slot.
  - destruct (screenshot_slot_ok _ _ _ _ _ Hb)
      as [(Ht & _) | (shot' & image_bytes & Hg' & _ & Hd & _ & _ & ->)];
      [congruence|].
    assert (shot' = shot) as -> by congruence.
    exists (payload_of shot), image_bytes.
    split; [apply base64_data_payload | split; [exact Hd|]].
    pose proof (screenshot_slot_frame log "after"
                  (written (image_path (timestamp_safe log) "before")
                     image_bytes st)) as (_ & _ & Fa).
    rewrite Ha in Fa. simpl in Fa. simpl.
    rewrite Fa by apply image_path_slots_differ. apply lookup_insert_eq.
  - destruct (screenshot_slot_ok _ _ _ _ _ Ha)
      as [(Ht & _) | (shot' & image_bytes & Hg' & _ & Hd & _ & _ & ->)];
      [congruence|].
    assert (shot' = shot) as -> by congruence.
    exists (payload_of shot), image_bytes.
    split; [apply base64_data_payload | split; [exact Hd|]].
    simpl. apply lookup_insert_eq.
Qed.

(** X7.  A submission, accepted or refused, touches no media file other
    than the image files of its two slots, and removes no file. *)
Theorem other_files_untouched (log : GenerationLog) (st : fs) (path : string) :
  (path <> image_path (timestamp_safe log) "before" ->
   path <> image_path (timestamp_safe log) "after" ->
   media (log_generation log st).2 !! path = media st !! path) /\
  (is_Some (media st !! path) ->
   is_Some (media (log_generation log st).2 !! path)).
Proof.
  split.
  - intros Hb Ha. apply log_generation_media; auto.
  - intros Hp. destruct (log_generation_media_steps log st) as [-> | ->];
      auto using slot_keeps_files.
Qed.

(** X8.  The text handed to the decoder is always defined (the index into
    the split never goes out of range) and never contains a comma. *)
Theorem payload_has_no_comma (shot : string) :
  exists data, base64_data shot = Ok data /\ Py.contains "," data = false.
Proof.
  exists (payload_of shot). split; [apply base64_data_payload|].
  unfold payload_of. destruct (Py.contains "," shot) eqn:Hc.
  - apply up_to_first_no_sep.
  - exact Hc.
Qed.

(** X9.  Two accepted submissions whose timestamps give the same token
    share one image file per slot: after the second, the [before] image
    holds the bytes of the second submission, while both records are in the
    log and both refer to that one path. *)
Theorem colliding_tokens_overwrite
    (log1 log2 : GenerationLog) (st st1 st2 : fs) (r1 r2 : json)
    (shot1 shot2 data2 : string) (bytes2 : list byte) :
  timestamp_safe log1 = timestamp_safe log2 ->
  log_generation log1 st = (Return r1, st1) ->
  log_generation log2 st1 = (Return r2, st2) ->
  Py.get "before" (screenshots log1) = Some shot1 -> shot1 <> EmptyString ->
  Py.get "before" (screenshots log2) = Some shot2 -> shot2 <> EmptyString ->
  base64_data shot2 = Ok data2 -> b64decode data2 = Ok bytes2 ->
  exists old e1 e2,
    log_file st2 = Document (JArr (old ++ [e1; e2])) /\
    screenshot_of "before" e1
      = Some (JStr (stored_path (timestamp_safe log1) "before")) /\
    screenshot_of "before" e2
      = Some (JStr (stored_path (timestamp_safe log1) "before")) /\
    media st2 !! image_path (timestamp_safe log1) "before" = Some bytes2.
Proof.
  intros Htok H1 H2 Hg1 Hn1 Hg2 Hn2 Hd2 Hb2.
  assert (V : forall log shot,
             Py.get "before" (screenshots log) = Some shot ->
             shot <> EmptyString ->
             slot_value log "before"
             = JStr (stored_path (timestamp_safe log) "before")).
  { intros log shot Hg Hn. unfold slot_value. rewrite Hg.
    destruct shot; [congruence | reflexivity]. }
  assert (Ho : open_wb (image_path (timestamp_safe log2) "before") = None).
  { destruct (log_generation_success _ _ _ _ H2)
      as (b & s1 & a & s2 & o & Hb & _).
    destruct (screenshot_slot_ok _ _ _ _ _ Hb)
      as [(Ht & _) | (sh & ib & _ & _ & _ & Ho & _)]; [|exact Ho].
    rewrite Hg2 in Ht. destruct shot2; [congruence | discriminate]. }
  pose proof (before_image_written log2 st1 shot2 bytes2 Hg2 Hn2) as Hm.
  rewrite base64_data_payload in Hd2. injection Hd2 as <-.
  specialize (Hm Hb2 Ho). rewrite H2 in Hm. simpl in Hm.
  destruct (log_generation_success _ _ _ _ H1)
    as (b1 & sa & a1 & sb & old & Hb1 & Ha1 & Hl1 & -> & _).
  destruct (log_generation_success _ _ _ _ H2)
    as (b2' & sc & a2 & sd & old2 & Hb2' & Ha2 & Hl2 & -> & _).
  pose proof (screenshot_slot_frame log2 "before"
                (appended (log_entry log1 b1 a1) old sb)) as (Fb & _).
  pose proof (screenshot_slot_frame log2 "after" sc) as (Fa & _).
  rewrite Hb2' in Fb. rewrite Ha2 in Fa. simpl in Fb, Fa.
  assert (old2 = old ++ [log_entry log1 b1 a1]) as -> by congruence.
  exists old, (log_entry log1 b1 a1), (log_entry log2 b2' a2).
  rewrite (slot_value_of_run _ _ _ _ _ Hb1), (V _ _ Hg1 Hn1).
  rewrite (slot_value_of_run _ _ _ _ _ Hb2'), (V _ _ Hg2 Hn2).
  rewrite Htok. repeat split.
  - simpl. rewrite <- app_assoc. reflexivity.
  - exact Hm.
Qed.

(** ** The token *)

Lemma length_take (n : nat) (s : string) :
  String.length (Py.take n s) = Nat.min n (String.length s).
Proof.
  revert s. induction n as [|n IH]; intros [|c s]; simpl; auto.
Qed.

Lemma length_map_chars (f : ascii -> ascii) (s : string) :
  String.length (Spec.map_chars f s) = String.length s.
Proof. induction s as [|c s IH]; simpl; auto. Qed.

Lemma contains_take (c : ascii) (n : nat) (s : string) :
  Py.contains c s = false -> Py.contains c (Py.take n s) = false.
Proof.
  revert s. induction n as [|n IH]; intros [|x s]; simpl; auto.
  destruct (Ascii.eqb x c); [discriminate | auto].
Qed.

Lemma contains_sanitized (c : ascii) (s : string) :
  (forall x, Ascii.eqb (Spec.sanitize x) c = false) ->
  Py.contains c (Spec.map_chars Spec.sanitize s) = false.
Proof.
  intros Hc. induction s as [|x s IH]; simpl; [reflexivity|].
  rewrite Hc. exact IH.
Qed.

Lemma sanitize_avoids (c x : ascii) :
  c = ":"%char \/ c = "."%char \/ c = "T"%char ->
  Ascii.eqb (Spec.sanitize x) c = false.
Proof.
  intros Hc. unfold Spec.sanitize.
  destruct (Ascii.eqb_spec x ":") as [->|N1];
    [destruct Hc as [->|[->| ->]]; reflexivity|].
  destruct (Ascii.eqb_spec x ".") as [->|N2];
    [destruct Hc as [->|[->| ->]]; reflexivity|].
  destruct (Ascii.eqb_spec x "T") as [->|N3];
    [destruct Hc as [->|[->| ->]]; reflexivity|].
  apply Ascii.eqb_neq. destruct Hc as [->|[->| ->]]; assumption.
Qed.

(** X10.  The three replacements in a row act as one substitution per
    character ([:] and [.] to [-], [T] to [_]); the token is the first 19
    characters of the result, so it is at most 19 characters long, as long
    as the timestamp when that is shorter, and holds no [:], [.] or [T]. *)
Theorem token_shape (log : GenerationLog) :
  timestamp_safe log
    = Py.take 19 (Spec.map_chars Spec.sanitize (timestamp log)) /\
  String.length (timestamp_safe log)
    = Nat.min 19 (String.length (timestamp log)) /\
  Py.contains ":" (timestamp_safe log) = false /\
  Py.contains "." (timestamp_safe log) = false /\
  Py.contains "T" (timestamp_safe log) = false.
Proof.
  rewrite timestamp_safe_spec, length_take, length_map_chars.
  repeat split; apply contains_take, contains_sanitized;
    intros x; apply sanitize_avoids; auto.
Qed.

(** ** Further properties of [GET /logs] *)

Lemma skipn_min {A} (k : nat) (l : list A) :
  List.skipn (Nat.min k (length l)) l = List.skipn k l.
Proof.
  destruct (Nat.le_gt_cases k (length l)) as [H|H].
  - rewrite Nat.min_l by exact H. reflexivity.
  - rewrite Nat.min_r by lia. rewrite skipn_all.
    symmetry. apply skipn_all2. lia.
Qed.

(** X11.  On a log file that holds a list, listing never fails, whatever
    the limit (positive, zero or negative): it answers with the number of
    records and a suffix of the log, and changes nothing. *)
Theorem listing_returns_a_suffix (st : fs) (records : list json) (limit : Z) :
  log_file st = Document (JArr records) ->
  exists older window,
    get_logs limit st =
      (Return (JObj [("total", JInt (Z.of_nat (length records)));
                     ("logs", JArr window)]), st) /\
    records = older ++ window.
Proof.
  intros Hl.
  exists (List.firstn (Py.slice_start (- limit) (Z.of_nat (length records)))
            records),
         (List.skipn (Py.slice_start (- limit) (Z.of_nat (length records)))
            records).
  split.
  - unfold get_logs, get_logs_try, bind, load_logs. rewrite Hl. reflexivity.
  - symmetry. apply firstn_skipn.
Qed.

(** X12.  A negative limit [-k] does not select the last records: the
    slice is [logs[k:]], the log without its [k] oldest records (nothing
    when the log has at most [k] records). *)
Theorem negative_limit_drops_oldest (st : fs) (records : list json) (limit : Z) :
  log_file st = Document (JArr records) ->
  limit < 0 ->
  get_logs limit st =
    (Return (JObj [("total", JInt (Z.of_nat (length records)));
                   ("logs", JArr (List.skipn (Z.to_nat (- limit)) records))]),
     st).
Proof.
  intros Hl Hneg.
  unfold get_logs, get_logs_try, bind, load_logs. rewrite Hl. simpl.
  replace (Py.slice_start (- limit) (Z.of_nat (length records)))
    with (Nat.min (Z.to_nat (- limit)) (length records)).
  - rewrite skipn_min. reflexivity.
  - unfold Py.slice_start. destruct (Z.ltb_spec (- limit) 0); lia.
Qed.

(** X13.  Listing is refused only when the log file does not hold a list;
    it is then refused with status 500, the state is left as it was, and the
    detail is [Error reading logs: ] followed by the text of the exception
    raised: the one of reading the log file, or else the one [len] raises on
    the document, or else the one slicing it raises. *)
Theorem refused_listing_report
    (limit : Z) (st st' : fs) (code : Z) (detail : string) :
  get_logs limit st = (HTTPException code detail, st') ->
  code = 500 /\
  st' = st /\
  (forall items, log_file st <> Document (JArr items)) /\
  exists e,
    detail = "Error reading logs: " +:+ exn_msg e /\
    (log_file st = Unreadable e \/
     exists j, log_file st = Document j /\
               (Py.len j = Raise e \/
                (exists n, Py.len j = Ok n) /\
                Py.slice_from (- limit) j = Raise e)).
Proof.
  unfold get_logs, get_logs_try, bind, load_logs, lift.
  destruct (log_file st) as [e|logs] eqn:Hl.
  - intros H. injection H as <- <- <-.
    repeat split; [discriminate|]. exists e. auto.
  - destruct (Py.len logs) as [n|e] eqn:Hn.
    + destruct (Py.slice_from (- limit) logs) as [w|e] eqn:Hs;
        [discriminate|].
      intros H. injection H as <- <- <-. repeat split.
      * intros items E. injection E as ->. discriminate.
      * exists e. split; [reflexivity|]. right. exists logs. eauto.
    + intros H. injection H as <- <- <-. repeat split.
      * intros items E. injection E as ->. discriminate.
      * exists e. split; [reflexivity|]. right. exists logs. auto.
Qed.


(** X15.  Submissions handled one after the other that are all accepted
    get consecutive values of [logIndex], starting at the number of records
    the log held before, and the log grows by one record for each. *)
Theorem submissions_get_consecutive_indices (logs : list GenerationLog) :
  forall (st st' : fs) (rs : list response) (old : list json),
    log_file st = Document (JArr old) ->
    submit_all logs st = (rs, st') ->
    Forall succeeded rs ->
    map response_index rs = indices_from (Z.of_nat (length old)) (length logs) /\
    exists entries,
      log_file st' = Document (JArr (old ++ entries)) /\
      length entries = length logs.
Proof.
  induction logs as [|log rest IH]; intros st st' rs old Hl Hrun Hok.
  - injection Hrun as <- <-. split; [reflexivity|].
    exists []. rewrite app_nil_r. auto.
  - simpl in Hrun.
    destruct (log_generation log st) as [r st1] eqn:E1.
    destruct (submit_all rest st1) as [rs' st2] eqn:E2.
    injection Hrun as <- <-.
    apply Forall_cons_1 in Hok as [Hr Hrest].
    destruct r as [body|]; [|destruct Hr].
    destruct (log_generation_appends _ _ _ _ E1)
      as (old' & before & after & Hold & Hnew).
    assert (old' = old) as -> by congruence.
    destruct (log_generation_success _ _ _ _ E1)
      as (b & sa & a & sb & old'' & _ & _ & Hl'' & Hst & ->).
    assert (old'' = old) as ->.
    { rewrite Hst in Hnew. simpl in Hnew. injection Hnew as Hnew.
      apply app_inj_tail in Hnew. tauto. }
    destruct (IH _ _ _ _ Hnew E2 Hrest) as (Hidx & entries & Hfin & Hlen).
    split.
    + simpl. rewrite Hidx. rewrite !length_app. simpl.
      replace (Z.of_nat (length old + 1) - 1) with (Z.of_nat (length old)) by lia.
      replace (Z.of_nat (length old + 1)) with (Z.of_nat (length old) + 1) by lia.
      reflexivity.
    + exists (log_entry log before after :: entries).
      rewrite <- app_assoc in Hfin. split; [exact Hfin|].
      simpl. rewrite Hlen. reflexivity.
Qed.

(** X16.  A server started where no log file exists creates one that holds
    the empty list: listing with any limit then answers with total 0 and no
    records, and the first accepted submission gets [logIndex] 0.  A log
    file that is already there is left as found. *)
Theorem fresh_start_is_empty (files : gmap string (list byte)) (limit : Z) :
  get_logs limit (startup None files) =
    (Return (JObj [("total", JInt 0); ("logs", JArr [])]),
     startup None files) /\
  (forall log body st',
     log_generation log (startup None files) = (Return body, st') ->
     field "logIndex" body = Some (JInt 0)) /\
  (forall content, log_file (startup (Some content) files) = content).
Proof.
  split; [|split].
  - unfold get_logs, get_logs_try, bind, load_logs. simpl.
    rewrite skipn_nil. reflexivity.
  - intros log body st' H.
    destruct (log_generation_success _ _ _ _ H)
      as (before & st1 & after & st2 & old & Hb & Ha & Hl & _ & ->).
    pose proof (screenshot_slot_frame log "before" (startup None files))
      as (Fb & _).
    pose proof (screenshot_slot_frame log "after" st1) as (Fa & _).
    rewrite Hb in Fb. rewrite Ha in Fa. simpl in Fb, Fa.
    assert (old = []) as -> by congruence. reflexivity.
  - reflexivity.
Qed.

End Server.

(** ** Round trip through the reference decoder

    A screenshot sent as a PNG data URI ends up, byte for byte, in the image
    file of its slot; for a token that does not begin with the separator
    that file lies in the media directory. *)

(** X18.  With the reference decoder, a non-empty payload sent as a PNG
    data URI in the [before] slot is, byte for byte, the content of the
    [before] image file once the handler is done, provided that file can be
    opened. *)
Lemma data_uri_round_trip
    (SCRIPT_DIR : string) (open_wb : string -> option exn)
    (log : GenerationLog) (payload : list byte) (st : fs) :
  payload <> [] ->
  open_wb (image_path SCRIPT_DIR (timestamp_safe log) "before") = None ->
  media (log_generation SCRIPT_DIR Base64.b64decode open_wb
           (with_screenshots log
              (<["before" := Some (Spec.data_uri (Base64.b64encode payload))]>
                 (screenshots log))) st).2
    !! image_path SCRIPT_DIR (timestamp_safe log) "before"
  = Some payload.
Proof.
  intros Hne Ho.
  apply (before_image_written SCRIPT_DIR Base64.b64decode open_wb
           (with_screenshots log
              (<["before" := Some (Spec.data_uri (Base64.b64encode payload))]>
                 (screenshots log)))
           st (Spec.data_uri (Base64.b64encode payload))).
  - simpl. apply get_insert_eq.
  - discriminate.
  - rewrite payload_of_data_uri. apply b64decode_b64encode.
  - exact Ho.
Qed.

Lemma image_in_media_dir (SCRIPT_DIR : string) (log : GenerationLog) (slot : string) :
  Py.startswith "/" (timestamp log) = false ->
  image_path SCRIPT_DIR (timestamp_safe log) slot =
  MEDIA_DIR SCRIPT_DIR +:+ "/" +:+ timestamp_safe log +:+ "-" +:+ slot +:+ ".png".
Proof.
  intros Hs. apply image_path_inside.
  unfold timestamp_safe. destruct (timestamp log) as [|c rest]; [reflexivity|].
  simpl in *.
  destruct (Ascii.eqb_spec c ":") as [->|_]; [reflexivity|].
  destruct (Ascii.eqb_spec c ".") as [->|_]; [reflexivity|].
  destruct (Ascii.eqb_spec c "T") as [->|_]; [reflexivity|].
  exact Hs.
Qed.

(** ** The theorems at sample inputs

    The server of the samples runs from [Sample.dir] and decodes with the
    reference decoder. *)

Lemma screenshot_decodes_second_field_witness :
  Py.get "before" (screenshots (Sample.with_before Sample.uri_ABC))
    = Some Sample.uri_ABC /\
  Sample.uri_ABC <> EmptyString /\
  screenshot_slot Sample.dir Base64.b64decode Sample.open_wb
    (Sample.with_before Sample.uri_ABC) "before" Sample.fresh =
  (Ok (JStr "media/2024-01-02_03-04-05-before.png"),
   written "/srv/picasso/logger/../logger_data/media/2024-01-02_03-04-05-before.png"
     Sample.ABC Sample.fresh).
Proof.
  assert (Hg : Py.get "before" (screenshots (Sample.with_before Sample.uri_ABC))
               = Some Sample.uri_ABC) by (vm_compute; reflexivity).
  assert (Hne : Sample.uri_ABC <> EmptyString) by discriminate.
  split; [exact Hg | split; [exact Hne|]].
  exact (proj2 (proj2 (screenshot_decodes_second_field
                         Sample.dir Base64.b64decode Sample.open_wb
                         (Sample.with_before Sample.uri_ABC) "before"
                         Sample.uri_ABC Sample.fresh Hg Hne))).
Defined.

Lemma rejected_before_leaves_log_witness :
  Py.get "before" (screenshots (Sample.with_before "QUJDQ")) = Some "QUJDQ" /\
  "QUJDQ" <> EmptyString /\
  base64_data "QUJDQ" = Ok "QUJDQ" /\
  Base64.b64decode "QUJDQ" =
    Raise (Exn BinasciiError
             "Invalid base64-encoded string: number of data characters (5) cannot be 1 more than a multiple of 4") /\
  (log_generation Sample.dir Base64.b64decode Sample.open_wb
     (Sample.with_before "QUJDQ") Sample.two_records).1 =
    HTTPException 500
      "Error saving log: Invalid base64-encoded string: number of data characters (5) cannot be 1 more than a multiple of 4" /\
  log_file (log_generation Sample.dir Base64.b64decode Sample.open_wb
              (Sample.with_before "QUJDQ") Sample.two_records).2 =
    log_file Sample.two_records /\
  media (log_generation Sample.dir Base64.b64decode Sample.open_wb
           (Sample.with_before "QUJDQ") Sample.two_records).2 =
    media Sample.two_records.
Proof.
  assert (Hg : Py.get "before" (screenshots (Sample.with_before "QUJDQ"))
               = Some "QUJDQ") by (vm_compute; reflexivity).
  assert (Hne : "QUJDQ" <> EmptyString) by discriminate.
  assert (Hd : base64_data "QUJDQ" = Ok "QUJDQ") by reflexivity.
  assert (He : Base64.b64decode "QUJDQ" =
    Raise (Exn BinasciiError
             "Invalid base64-encoded string: number of data characters (5) cannot be 1 more than a multiple of 4"))
    by (vm_compute; reflexivity).
  repeat (split; [assumption|]).
  exact (rejected_before_leaves_log Sample.dir Base64.b64decode Sample.open_wb
           (Sample.with_before "QUJDQ") Sample.two_records
           "QUJDQ" "QUJDQ" _ Hg Hne Hd He).
Defined.


Lemma successful_submit_appends_witness :
  log_generation Sample.dir Base64.b64decode Sample.open_wb Sample.plain Sample.two_records =
    (Return (success 2 Sample.plain),
     appended (log_entry Sample.plain JNull JNull)
       [Sample.record 1; Sample.record 2] Sample.two_records) /\
  exists old entry before after,
    log_file Sample.two_records = Document (JArr old) /\
    log_file (appended (log_entry Sample.plain JNull JNull)
                [Sample.record 1; Sample.record 2] Sample.two_records)
      = Document (JArr (old ++ [entry])) /\
    (forall i record, old !! i = Some record ->
                      (old ++ [entry]) !! i = Some record) /\
    (old ++ [entry]) !! length old = Some entry /\
    length (old ++ [entry]) = S (length old) /\
    entry = log_entry Sample.plain before after.
Proof.
  assert (H : log_generation Sample.dir Base64.b64decode Sample.open_wb Sample.plain
                Sample.two_records =
              (Return (success 2 Sample.plain),
               appended (log_entry Sample.plain JNull JNull)
                 [Sample.record 1; Sample.record 2] Sample.two_records))
    by (vm_compute; reflexivity).
  split; [exact H|].
  exact (successful_submit_appends Sample.dir Base64.b64decode Sample.open_wb Sample.plain
           Sample.two_records _ _ H).
Defined.

Lemma success_response_index_witness :
  log_generation Sample.dir Base64.b64decode Sample.open_wb
    (Sample.with_before Sample.uri_ABC) Sample.two_records =
    (Return (success 2 (Sample.with_before Sample.uri_ABC)),
     appended
       (log_entry (Sample.with_before Sample.uri_ABC)
          (JStr "media/2024-01-02_03-04-05-before.png") JNull)
       [Sample.record 1; Sample.record 2]
       (written
          "/srv/picasso/logger/../logger_data/media/2024-01-02_03-04-05-before.png"
          Sample.ABC Sample.two_records)) /\
  exists records entry,
    log_file
      (appended
         (log_entry (Sample.with_before Sample.uri_ABC)
            (JStr "media/2024-01-02_03-04-05-before.png") JNull)
         [Sample.record 1; Sample.record 2]
         (written
            "/srv/picasso/logger/../logger_data/media/2024-01-02_03-04-05-before.png"
            Sample.ABC Sample.two_records))
      = Document (JArr records) /\
    success 2 (Sample.with_before Sample.uri_ABC) =
      JObj [("status", JStr "success");
            ("message", JStr "Log saved successfully");
            ("logIndex", JInt (Z.of_nat (length records) - 1));
            ("timestamp", JStr (timestamp (Sample.with_before Sample.uri_ABC)))] /\
    records !! Z.to_nat (Z.of_nat (length records) - 1) = Some entry /\
    field "timestamp" entry
      = Some (JStr (timestamp (Sample.with_before Sample.uri_ABC))).
Proof.
  match goal with |- ?A /\ _ => assert (H : A) by (vm_compute; reflexivity) end.
  split; [exact H|].
  exact (success_response_index Sample.dir Base64.b64decode Sample.open_wb
           (Sample.with_before Sample.uri_ABC) Sample.two_records _ _ H).
Defined.

Lemma raw_and_data_uri_agree_witness :
  Sample.ABC <> [] /\
  log_generation Sample.dir Base64.b64decode Sample.open_wb
    (with_screenshots Sample.plain
       (<["before" := Some (Base64.b64encode Sample.ABC)]>
          (screenshots Sample.plain))) Sample.fresh =
  log_generation Sample.dir Base64.b64decode Sample.open_wb
    (with_screenshots Sample.plain
       (<["before" := Some (Spec.data_uri (Base64.b64encode Sample.ABC))]>
          (screenshots Sample.plain))) Sample.fresh.
Proof.
  assert (Hne : Sample.ABC <> []) by discriminate.
  split; [exact Hne|].
  exact (raw_and_data_uri_agree Sample.dir Base64.b64decode Sample.open_wb Sample.plain
           "before" Sample.ABC Sample.fresh Hne).
Defined.

Lemma empty_screenshot_as_absent_witness :
  ("before" = "before" \/ "before" = "after") /\
  screenshots (Sample.with_before "") !! "before" = Some (Some EmptyString) /\
  log_generation Sample.dir Base64.b64decode Sample.open_wb (Sample.with_before "")
    Sample.two_records =
    log_generation Sample.dir Base64.b64decode Sample.open_wb
      (with_screenshots (Sample.with_before "")
         (<["before" := None]> (screenshots (Sample.with_before ""))))
      Sample.two_records.
Proof.
  assert (Hs : "before" = "before" \/ "before" = "after")
    by (left; reflexivity).
  assert (Hg : screenshots (Sample.with_before "") !! "before"
               = Some (Some EmptyString)) by (vm_compute; reflexivity).
  split; [exact Hs | split; [exact Hg|]].
  exact (proj1 (empty_screenshot_as_absent Sample.dir Base64.b64decode Sample.open_wb
                  (Sample.with_before "") "before" Sample.two_records Hs Hg)).
Defined.

Lemma get_logs_returns_last_witness :
  log_file Sample.three_records
    = Document (JArr [Sample.record 1; Sample.record 2; Sample.record 3]) /\
  0 < 2 /\
  exists window,
    get_logs 2 Sample.three_records =
      (Return (JObj [("total", JInt 3); ("logs", JArr window)]),
       Sample.three_records) /\
    window = Spec.last_records 2
               [Sample.record 1; Sample.record 2; Sample.record 3] /\
    (exists older,
       [Sample.record 1; Sample.record 2; Sample.record 3] = older ++ window) /\
    (2 < 3 -> Z.of_nat (length window) = 2) /\
    (3 <= 2 -> window = [Sample.record 1; Sample.record 2; Sample.record 3]).
Proof.
  assert (Hpos : 0 < 2) by lia.
  split; [reflexivity | split; [exact Hpos|]].
  exact (get_logs_returns_last Sample.three_records
           [Sample.record 1; Sample.record 2; Sample.record 3] 2
           eq_refl Hpos).
Defined.

(** ** The further properties at sample inputs *)


Lemma before_image_stays_when_after_is_rejected_witness :
  Py.get "before" (screenshots (Sample.with_both "QUJD" "QQ")) = Some "QUJD" /\
  "QUJD" <> EmptyString /\
  base64_data "QUJD" = Ok "QUJD" /\
  Base64.b64decode "QUJD" = Ok Sample.ABC /\
  Sample.open_wb
    (image_path Sample.dir (timestamp_safe (Sample.with_both "QUJD" "QQ"))
       "before") = None /\
  Py.get "after" (screenshots (Sample.with_both "QUJD" "QQ")) = Some "QQ" /\
  "QQ" <> EmptyString /\
  base64_data "QQ" = Ok "QQ" /\
  Base64.b64decode "QQ" = Raise (Exn BinasciiError "Incorrect padding") /\
  (log_generation Sample.dir Base64.b64decode Sample.open_wb
     (Sample.with_both "QUJD" "QQ") Sample.fresh).1 =
    HTTPException 500 "Error saving log: Incorrect padding" /\
  log_file (log_generation Sample.dir Base64.b64decode Sample.open_wb
              (Sample.with_both "QUJD" "QQ") Sample.fresh).2
    = log_file Sample.fresh /\
  media (log_generation Sample.dir Base64.b64decode Sample.open_wb
           (Sample.with_both "QUJD" "QQ") Sample.fresh).2
    !! image_path Sample.dir (timestamp_safe (Sample.with_both "QUJD" "QQ"))
         "before" = Some Sample.ABC /\
  media (log_generation Sample.dir Base64.b64decode Sample.open_wb
           (Sample.with_both "QUJD" "QQ") Sample.fresh).2
    !! image_path Sample.dir (timestamp_safe (Sample.with_both "QUJD" "QQ"))
         "after"
    = media Sample.fresh
        !! image_path Sample.dir (timestamp_safe (Sample.with_both "QUJD" "QQ"))
             "after".
Proof.
  assert (G1 : Py.get "before" (screenshots (Sample.with_both "QUJD" "QQ"))
               = Some "QUJD") by (vm_compute; reflexivity).
  assert (N1 : "QUJD" <> EmptyString) by discriminate.
  assert (D1 : base64_data "QUJD" = Ok "QUJD") by reflexivity.
  assert (B1 : Base64.b64decode "QUJD" = Ok Sample.ABC)
    by (vm_compute; reflexivity).
  assert (O1 : Sample.open_wb
                 (image_path Sample.dir
                    (timestamp_safe (Sample.with_both "QUJD" "QQ")) "before")
               = None) by (vm_compute; reflexivity).
  assert (G2 : Py.get "after" (screenshots (Sample.with_both "QUJD" "QQ"))
               = Some "QQ") by (vm_compute; reflexivity).
  assert (N2 : "QQ" <> EmptyString) by discriminate.
  assert (D2 : base64_data "QQ" = Ok "QQ") by reflexivity.
  assert (B2 : Base64.b64decode "QQ"
               = Raise (Exn BinasciiError "Incorrect padding"))
    by (vm_compute; reflexivity).
  repeat (split; [assumption|]).
  exact (before_image_stays_when_after_is_rejected
           Sample.dir Base64.b64decode Sample.open_wb (Sample.with_both "QUJD" "QQ")
           Sample.fresh "QUJD" "QUJD" "QQ" "QQ" Sample.ABC _
           G1 N1 D1 B1 O1 G2 N2 D2 B2).
Defined.

Lemma broken_log_is_reported_witness :
  slot_passes Sample.dir Base64.b64decode Sample.open_wb Sample.plain "before" /\
  slot_passes Sample.dir Base64.b64decode Sample.open_wb Sample.plain "after" /\
  (log_generation Sample.dir Base64.b64decode Sample.open_wb Sample.plain Sample.unreadable).1
    = HTTPException 500
        "Error saving log: Expecting value: line 1 column 1 (char 0)" /\
  (log_generation Sample.dir Base64.b64decode Sample.open_wb Sample.plain Sample.object_log).1
    = HTTPException 500
        "Error saving log: 'dict' object has no attribute 'append'".
Proof.
  assert (Pb : slot_passes Sample.dir Base64.b64decode Sample.open_wb Sample.plain "before")
    by (left; vm_compute; reflexivity).
  assert (Pa : slot_passes Sample.dir Base64.b64decode Sample.open_wb Sample.plain "after")
    by (left; vm_compute; reflexivity).
  split; [exact Pb | split; [exact Pa|]]. split.
  - exact (proj1 (broken_log_is_reported Sample.dir Base64.b64decode Sample.open_wb
                    Sample.plain Sample.unreadable Pb Pa)
             Sample.parse_error eq_refl).
  - exact (proj1 (proj2 (broken_log_is_reported Sample.dir Base64.b64decode Sample.open_wb
                           Sample.plain Sample.object_log Pb Pa))
             (JObj []) eq_refl ltac:(discriminate)).
Defined.

Lemma stored_record_shape_witness :
  log_generation Sample.dir Base64.b64decode Sample.open_wb
    (Sample.with_before Sample.uri_ABC) Sample.two_records =
    (Return (success 2 (Sample.with_before Sample.uri_ABC)),
     (log_generation Sample.dir Base64.b64decode Sample.open_wb
        (Sample.with_before Sample.uri_ABC) Sample.two_records).2) /\
  exists old,
    log_file (log_generation Sample.dir Base64.b64decode Sample.open_wb
                (Sample.with_before Sample.uri_ABC) Sample.two_records).2 =
      Document
        (JArr (old ++
           [JObj [("timestamp", JStr Sample.ts);
                  ("designPrompt", JStr "a login form");
                  ("figmaDOM", JObj [("type", JStr "FRAME")]);
                  ("descriptionAPI", JNull);
                  ("generationAPI", JNull);
                  ("screenshots",
                   JObj [("before", JStr "media/2024-01-02_03-04-05-before.png");
                         ("after", JNull)])]])) /\
    stdout (log_generation Sample.dir Base64.b64decode Sample.open_wb
              (Sample.with_before Sample.uri_ABC) Sample.two_records).2
      = stdout Sample.two_records.
Proof.
  match goal with |- ?A /\ _ => assert (H : A) by (vm_compute; reflexivity) end.
  split; [exact H|].
  exact (stored_record_shape Sample.dir Base64.b64decode Sample.open_wb
           (Sample.with_before Sample.uri_ABC) Sample.two_records _ _ H).
Defined.

Lemma stored_path_names_image_witness :
  log_generation Sample.dir Base64.b64decode Sample.open_wb
    (Sample.with_before Sample.uri_ABC) Sample.two_records =
    (Return (success 2 (Sample.with_before Sample.uri_ABC)),
     (log_generation Sample.dir Base64.b64decode Sample.open_wb
        (Sample.with_before Sample.uri_ABC) Sample.two_records).2) /\
  ("before" = "before" \/ "before" = "after") /\
  Py.get "before" (screenshots (Sample.with_before Sample.uri_ABC))
    = Some Sample.uri_ABC /\
  Sample.uri_ABC <> EmptyString /\
  Py.startswith "/" (timestamp (Sample.with_before Sample.uri_ABC)) = false /\
  exists data image_bytes,
    base64_data Sample.uri_ABC = Ok data /\
    Base64.b64decode data = Ok image_bytes /\
    media (log_generation Sample.dir Base64.b64decode Sample.open_wb
             (Sample.with_before Sample.uri_ABC) Sample.two_records).2
      !! Py.path_join (LOGGER_DIR Sample.dir)
           (stored_path (timestamp_safe (Sample.with_before Sample.uri_ABC))
              "before")
      = Some image_bytes.
Proof.
  match goal with |- ?A /\ _ => assert (H : A) by (vm_compute; reflexivity) end.
  assert (Hs : "before" = "before" \/ "before" = "after") by (left; reflexivity).
  assert (Hg : Py.get "before" (screenshots (Sample.with_before Sample.uri_ABC))
               = Some Sample.uri_ABC) by (vm_compute; reflexivity).
  assert (Hn : Sample.uri_ABC <> EmptyString) by discriminate.
  assert (Hr : Py.startswith "/" (timestamp (Sample.with_before Sample.uri_ABC))
               = false) by reflexivity.
  repeat (split; [assumption|]).
  exact (stored_path_names_image Sample.dir Base64.b64decode Sample.open_wb
           (Sample.with_before Sample.uri_ABC) Sample.two_records _ _
           "before" Sample.uri_ABC H Hs Hg Hn Hr).
Defined.

Lemma colliding_tokens_overwrite_witness :
  timestamp_safe Sample.first_of_second = timestamp_safe Sample.later_in_second /\
  log_generation Sample.dir Base64.b64decode Sample.open_wb Sample.first_of_second Sample.fresh =
    (Return (success 0 Sample.first_of_second),
     (log_generation Sample.dir Base64.b64decode Sample.open_wb
        Sample.first_of_second Sample.fresh).2) /\
  log_generation Sample.dir Base64.b64decode Sample.open_wb Sample.later_in_second
    (log_generation Sample.dir Base64.b64decode Sample.open_wb
       Sample.first_of_second Sample.fresh).2 =
    (Return (success 1 Sample.later_in_second),
     (log_generation Sample.dir Base64.b64decode Sample.open_wb Sample.later_in_second
        (log_generation Sample.dir Base64.b64decode Sample.open_wb
           Sample.first_of_second Sample.fresh).2).2) /\
  Py.get "before" (screenshots Sample.first_of_second) = Some "QUJD" /\
  "QUJD" <> EmptyString /\
  Py.get "before" (screenshots Sample.later_in_second) = Some "QUJE" /\
  "QUJE" <> EmptyString /\
  base64_data "QUJE" = Ok "QUJE" /\
  Base64.b64decode "QUJE" = Ok Sample.ABD /\
  exists old e1 e2,
    log_file (log_generation Sample.dir Base64.b64decode Sample.open_wb Sample.later_in_second
                (log_generation Sample.dir Base64.b64decode Sample.open_wb
                   Sample.first_of_second Sample.fresh).2).2
      = Document (JArr (old ++ [e1; e2])) /\
    screenshot_of "before" e1
      = Some (JStr (stored_path (timestamp_safe Sample.first_of_second) "before")) /\
    screenshot_of "before" e2
      = Some (JStr (stored_path (timestamp_safe Sample.first_of_second) "before")) /\
    media (log_generation Sample.dir Base64.b64decode Sample.open_wb Sample.later_in_second
             (log_generation Sample.dir Base64.b64decode Sample.open_wb
                Sample.first_of_second Sample.fresh).2).2
      !! image_path Sample.dir (timestamp_safe Sample.first_of_second) "before"
      = Some Sample.ABD.
Proof.
  assert (T : timestamp_safe Sample.first_of_second
              = timestamp_safe Sample.later_in_second) by reflexivity.
  split; [exact T|].
  match goal with |- ?A /\ _ => assert (H1 : A) by (vm_compute; reflexivity) end.
  split; [exact H1|].
  match goal with |- ?A /\ _ => assert (H2 : A) by (vm_compute; reflexivity) end.
  split; [exact H2|].
  assert (G1 : Py.get "before" (screenshots Sample.first_of_second)
               = Some "QUJD") by (vm_compute; reflexivity).
  assert (N1 : "QUJD" <> EmptyString) by discriminate.
  assert (G2 : Py.get "before" (screenshots Sample.later_in_second)
               = Some "QUJE") by (vm_compute; reflexivity).
  assert (N2 : "QUJE" <> EmptyString) by discriminate.
  assert (D2 : base64_data "QUJE" = Ok "QUJE") by reflexivity.
  assert (B2 : Base64.b64decode "QUJE" = Ok Sample.ABD)
    by (vm_compute; reflexivity).
  repeat (split; [assumption|]).
  exact (colliding_tokens_overwrite Sample.dir Base64.b64decode Sample.open_wb
           Sample.first_of_second Sample.later_in_second Sample.fresh _ _ _ _
           "QUJD" "QUJE" "QUJE" Sample.ABD T H1 H2 G1 N1 G2 N2 D2 B2).
Defined.

Lemma listing_returns_a_suffix_witness :
  log_file Sample.three_records
    = Document (JArr [Sample.record 1; Sample.record 2; Sample.record 3]) /\
  exists older window,
    get_logs (-2) Sample.three_records =
      (Return (JObj [("total", JInt 3); ("logs", JArr window)]),
       Sample.three_records) /\
    [Sample.record 1; Sample.record 2; Sample.record 3] = older ++ window.
Proof.
  split; [reflexivity|].
  exact (listing_returns_a_suffix Sample.three_records
           [Sample.record 1; Sample.record 2; Sample.record 3] (-2) eq_refl).
Defined.

Lemma negative_limit_drops_oldest_witness :
  log_file Sample.three_records
    = Document (JArr [Sample.record 1; Sample.record 2; Sample.record 3]) /\
  -1 < 0 /\
  get_logs (-1) Sample.three_records =
    (Return (JObj [("total", JInt 3);
                   ("logs", JArr [Sample.record 2; Sample.record 3])]),
     Sample.three_records).
Proof.
  assert (Hneg : -1 < 0) by lia.
  split; [reflexivity | split; [exact Hneg|]].
  exact (negative_limit_drops_oldest Sample.three_records
           [Sample.record 1; Sample.record 2; Sample.record 3] (-1)
           eq_refl Hneg).
Defined.

Lemma refused_listing_report_witness :
  get_logs 10 Sample.unreadable =
    (HTTPException 500
       "Error reading logs: Expecting value: line 1 column 1 (char 0)",
     Sample.unreadable) /\
  (500 = 500 /\
   Sample.unreadable = Sample.unreadable /\
   (forall items, log_file Sample.unreadable <> Document (JArr items)) /\
   exists e,
     "Error reading logs: Expecting value: line 1 column 1 (char 0)"
       = "Error reading logs: " +:+ exn_msg e /\
     (log_file Sample.unreadable = Unreadable e \/
      exists j, log_file Sample.unreadable = Document j /\
                (Py.len j = Raise e \/
                 (exists n, Py.len j = Ok n) /\
                 Py.slice_from (- 10) j = Raise e))).
Proof.
  match goal with |- ?A /\ _ => assert (H : A) by (vm_compute; reflexivity) end.
  split; [exact H|].
  exact (refused_listing_report 10 Sample.unreadable _ _ _ H).
Defined.


Lemma submissions_get_consecutive_indices_witness :
  log_file Sample.two_records
    = Document (JArr [Sample.record 1; Sample.record 2]) /\
  submit_all Sample.dir Base64.b64decode Sample.open_wb
    [Sample.plain; Sample.with_before Sample.uri_ABC] Sample.two_records =
    ([Return (success 2 Sample.plain);
      Return (success 3 (Sample.with_before Sample.uri_ABC))],
     (submit_all Sample.dir Base64.b64decode Sample.open_wb
        [Sample.plain; Sample.with_before Sample.uri_ABC]
        Sample.two_records).2) /\
  Forall succeeded
    [Return (success 2 Sample.plain);
     Return (success 3 (Sample.with_before Sample.uri_ABC))] /\
  map response_index
    [Return (success 2 Sample.plain);
     Return (success 3 (Sample.with_before Sample.uri_ABC))]
    = [Some (JInt 2); Some (JInt 3)] /\
  exists entries,
    log_file (submit_all Sample.dir Base64.b64decode Sample.open_wb
                [Sample.plain; Sample.with_before Sample.uri_ABC]
                Sample.two_records).2
      = Document (JArr ([Sample.record 1; Sample.record 2] ++ entries)) /\
    length entries = 2%nat.
Proof.
  split; [reflexivity|].
  match goal with |- ?A /\ _ => assert (H : A) by (vm_compute; reflexivity) end.
  split; [exact H|].
  assert (F : Forall succeeded
                [Return (success 2 Sample.plain);
                 Return (success 3 (Sample.with_before Sample.uri_ABC))])
    by (repeat constructor).
  split; [exact F|].
  exact (submissions_get_consecutive_indices Sample.dir Base64.b64decode Sample.open_wb
           [Sample.plain; Sample.with_before Sample.uri_ABC]
           Sample.two_records _ _ [Sample.record 1; Sample.record 2]
           eq_refl H F).
Defined.

Lemma submissions_in_order_witness :
  log_file Sample.two_records
    = Document (JArr [Sample.record 1; Sample.record 2]) /\
  submit_all Sample.dir Base64.b64decode Sample.open_wb
    [Sample.first_of_second; Sample.plain] Sample.two_records =
    ([Return (success 2 Sample.first_of_second);
      Return (success 3 Sample.plain)],
     (submit_all Sample.dir Base64.b64decode Sample.open_wb
        [Sample.first_of_second; Sample.plain] Sample.two_records).2) /\
  Forall succeeded
    [Return (success 2 Sample.first_of_second);
     Return (success 3 Sample.plain)] /\
  exists entries,
    log_file (submit_all Sample.dir Base64.b64decode Sample.open_wb
                [Sample.first_of_second; Sample.plain]
                Sample.two_records).2
      = Document (JArr ([Sample.record 1; Sample.record 2] ++ entries)) /\
    map (field "timestamp") entries =
    [Some (JStr "2024-01-02T03:04:05.111Z"); Some (JStr Sample.ts)].
Proof.
  split; [reflexivity|].
  match goal with |- ?A /\ _ => assert (H : A) by (vm_compute; reflexivity) end.
  split; [exact H|].
  assert (F : Forall succeeded
                [Return (success 2 Sample.first_of_second);
                 Return (success 3 Sample.plain)])
    by (repeat constructor).
  split; [exact F|].
  exact (submissions_in_order Sample.dir Base64.b64decode Sample.open_wb
           [Sample.first_of_second; Sample.plain]
           Sample.two_records _ _ [Sample.record 1; Sample.record 2]
           eq_refl H F).
Defined.

Lemma data_uri_round_trip_witness :
  Sample.ABC <> [] /\
  Sample.open_wb (image_path Sample.dir (timestamp_safe Sample.plain) "before")
    = None /\
  media (log_generation Sample.dir Base64.b64decode Sample.open_wb
           (with_screenshots Sample.plain
              (<["before" := Some (Spec.data_uri (Base64.b64encode Sample.ABC))]>
                 (screenshots Sample.plain))) Sample.fresh).2
    !! image_path Sample.dir (timestamp_safe Sample.plain) "before"
  = Some Sample.ABC.
Proof.
  assert (Hne : Sample.ABC <> []) by discriminate.
  assert (Ho : Sample.open_wb
                 (image_path Sample.dir (timestamp_safe Sample.plain) "before")
               = None) by (vm_compute; reflexivity).
  split; [exact Hne | split; [exact Ho|]].
  exact (data_uri_round_trip Sample.dir Sample.open_wb Sample.plain Sample.ABC
           Sample.fresh Hne Ho).
Defined.


(** ** Where the code departs from the claims *)

(** C1 (the code at the failing input).  [GET /logs] with [limit=0] on a log
    of two records answers with [total = 2] and both records: the slice
    [logs[-0:]] is the whole list, not the empty one. *)
Theorem get_logs_limit_zero_returns_all :
  get_logs 0 Sample.two_records =
  (Return (JObj [("total", JInt 2);
                 ("logs", JArr [Sample.record 1; Sample.record 2])]),
   Sample.two_records).
Proof. vm_compute. reflexivity. Qed.

(** C2 (counterexample).  For the value [x,QUJD,QUJD] the text after the
    first comma is [QUJD,QUJD], which decodes to [ABCABC]; the handler
    decodes the field [QUJD] and writes [ABC]. *)
Lemma payload_stops_at_second_comma :
  Py.contains "," Sample.two_commas = true /\
  Spec.after_first "," Sample.two_commas = "QUJD,QUJD" /\
  base64_data Sample.two_commas = Ok "QUJD" /\
  base64_data Sample.two_commas <> Ok (Spec.after_first "," Sample.two_commas) /\
  media (log_generation Sample.dir Base64.b64decode Sample.open_wb
           (Sample.with_before Sample.two_commas) Sample.fresh).2
    !! Sample.before_png = Some Sample.ABC /\
  Base64.b64decode (Spec.after_first "," Sample.two_commas)
    = Ok (Sample.ABC ++ Sample.ABC).
Proof.
  repeat split; try (vm_compute; reflexivity). vm_compute. discriminate.
Qed.

(** C3 (counterexample).  The text [!!!!] is the base64 encoding of no byte
    sequence, yet a submission that carries it as [screenshots.before] is
    accepted: the decoder skips the four characters, an empty image file is
    written, and a third record is appended to a log of two. *)
Lemma unencodable_before_is_accepted :
  Spec.malformed "!!!!" /\
  log_file Sample.two_records
    = Document (JArr [Sample.record 1; Sample.record 2]) /\
  log_generation Sample.dir Base64.b64decode Sample.open_wb
    (Sample.with_before "!!!!") Sample.two_records =
  (Return (success 2 (Sample.with_before "!!!!")),
   appended
     (log_entry (Sample.with_before "!!!!")
        (JStr "media/2024-01-02_03-04-05-before.png") JNull)
     [Sample.record 1; Sample.record 2]
     (written Sample.before_png [] Sample.two_records)).
Proof.
  split; [|split; vm_compute; reflexivity].
  intros payload E.
  assert (H : Py.contains "!" (Base64.b64encode payload) = false).
  { apply b64encode_contains; [|discriminate].
    intros H. vm_compute in H.
    repeat (destruct H as [H|H]; [discriminate H|]). exact H. }
  rewrite E in H. discriminate.
Qed.

(** C7 (the code at the failing input).  For the timestamp [/tmp/shot] the
    token is [/tmp/shot]; the image is written to [/tmp/shot-before.png],
    nothing is written under the media directory, and the record refers to
    [media//tmp/shot-before.png]. *)
Theorem absolute_token_leaves_media_dir :
  timestamp_safe Sample.absolute = "/tmp/shot" /\
  MEDIA_DIR Sample.dir = "/srv/picasso/logger/../logger_data/media" /\
  media (log_generation Sample.dir Base64.b64decode Sample.open_wb
           Sample.absolute Sample.fresh).2
    !! "/tmp/shot-before.png" = Some Sample.ABC /\
  media (log_generation Sample.dir Base64.b64decode Sample.open_wb
           Sample.absolute Sample.fresh).2
    !! (MEDIA_DIR Sample.dir +:+ "/" +:+ "/tmp/shot" +:+ "-before.png") = None /\
  log_file (log_generation Sample.dir Base64.b64decode Sample.open_wb
              Sample.absolute Sample.fresh).2 =
    Document (JArr [log_entry Sample.absolute
                      (JStr "media//tmp/shot-before.png") JNull]).
Proof. repeat split; vm_compute; reflexivity. Qed.

(** C9 (counterexample).  For the empty byte sequence the bare encoding is
    the empty string, which the handler skips: no image file is written.
    Behind the prefix the same encoding makes the handler write an empty
    image file. *)
Lemma empty_payload_raw_and_data_uri_differ :
  Base64.b64encode [] = EmptyString /\
  media (log_generation Sample.dir Base64.b64decode Sample.open_wb
           (Sample.raw []) Sample.fresh).2 !! Sample.before_png = None /\
  media (log_generation Sample.dir Base64.b64decode Sample.open_wb
           (Sample.prefixed []) Sample.fresh).2 !! Sample.before_png = Some [] /\
  log_generation Sample.dir Base64.b64decode Sample.open_wb (Sample.raw []) Sample.fresh <>
  log_generation Sample.dir Base64.b64decode Sample.open_wb (Sample.prefixed []) Sample.fresh.
Proof.
  repeat split; try (vm_compute; reflexivity).
  intros E.
  apply (f_equal (fun r => media r.2 !! Sample.before_png)) in E.
  vm_compute in E. discriminate.
Qed.
